(** * QKart backend: the cart service and checkout

    A shallow embedding of [src/services/cart.service.js] together with the
    one method of [src/models/user.model.js] that checkout calls
    ([hasSetNonDefaultAddress]) and the validator of its password field.

    Modelling decisions, all of them visible in the definitions below:

    - JavaScript numbers ([cost], [quantity], [walletMoney]) are binary64.
      The service is embedded on integers ([Z]), on which its arithmetic
      ([+], [*], [-], [<]) is exact, for the properties that do not turn on
      rounding; [checkout], the one function that computes, is embedded a
      second time on binary64 numbers (module [Double]) for the properties
      that do.
    - A stored identifier is held as the text an ObjectId prints, 24
      hexadecimal digits in lower case.  [doc._id == productId] and
      [doc._id.toString() === productId] both compare that text with the
      string [productId] as it was given, while [Product.findById(productId)]
      first casts [productId] to an ObjectId, whatever the case of its
      digits.
    - The [Cart] collection is a finite map keyed by the owner's e-mail (the
      key of every [Cart.findOne({ email })] of the service), the [User]
      collection a finite map keyed by [_id], the [Product] collection a list
      searched by [_id].
    - Every [await] on the database is a step of a state-and-exception monad.
      A write ([Cart.create], [doc.save()]) consumes one entry of a script of
      write outcomes: [true] persists, [false] rejects the promise and
      persists nothing; an exhausted script persists.  The state is returned
      on both outcomes, a rejected promise does not roll anything back.
    - Each call on a collaborator is appended to a trace, so that "this check
      was not run" is a statement about the trace. *)

From Stdlib Require Import ZArith List Ascii String Bool Lia.
From Stdlib Require PrimFloat Uint63.
From stdpp Require Import base option gmap strings list fin_maps.
Import ListNotations.

Local Open Scope string_scope.
Local Open Scope Z_scope.

(** ** Status codes and errors *)

(** The constants of the [http-status] package that the service and the
    specification name. *)
Module httpStatus.
Definition BAD_REQUEST : Z := 400.
Definition NOT_FOUND : Z := 404.
Definition CONFLICT : Z := 409.
Definition INTERNAL_SERVER_ERROR : Z := 500.
End httpStatus.

(** What a promise rejects with: an [ApiError] thrown by the service, the
    error of the database driver when a write fails, or the [CastError] of a
    query whose identifier is no ObjectId. *)
Inductive Error : Type :=
| ApiError (statusCode : Z) (message : string)
| StoreError
| CastError.

(** The error kinds of the specification, and the status code each stands
    for. *)
Inductive ErrorKind : Type := NotFound | InvalidInput | Conflict | Internal.

Definition kind_of (e : Error) : option ErrorKind :=
  match e with
  | ApiError 404 _ => Some NotFound
  | ApiError 400 _ => Some InvalidInput
  | ApiError 409 _ => Some Conflict
  | ApiError 500 _ => Some Internal
  | _ => None
  end.

(** ** Documents *)

Record Product : Type := { product_id : string; cost : Z }.

Record CartItem : Type := { product : Product; quantity : Z }.

Record Cart : Type :=
  { cart_id : string; cart_email : string; cartItems : list CartItem }.

Record User : Type :=
  { user_id : string; user_email : string; walletMoney : Z; address : string }.

(** [config/config.js] is not part of the sources; the one value the service
    depends on is the default address. *)
Record Config : Type := { default_address : string }.

(** ** The database, the write script and the trace *)

Inductive Event : Type :=
| EvCartFindOne (email : string)
| EvProductFindById (id : string)
| EvCartCreate (email : string)
| EvCartSave (email : string)
| EvUserSave (id : string)
| EvHasSetNonDefaultAddress (id : string).

Record World : Type :=
  { carts : gmap string Cart;
    users : gmap string User;
    products : list Product;
    script : list bool;
    trace : list Event }.

Definition log (ev : Event) (w : World) : World :=
  {| carts := carts w; users := users w; products := products w;
     script := script w; trace := trace w ++ [ev] |}.

Definition set_carts (f : gmap string Cart → gmap string Cart) (w : World) : World :=
  {| carts := f (carts w); users := users w; products := products w;
     script := script w; trace := trace w |}.

Definition set_users (f : gmap string User → gmap string User) (w : World) : World :=
  {| carts := carts w; users := f (users w); products := products w;
     script := script w; trace := trace w |}.

Definition set_script (s : list bool) (w : World) : World :=
  {| carts := carts w; users := users w; products := products w;
     script := s; trace := trace w |}.

(** ** Promises: state and exceptions *)

Inductive Result (A : Type) : Type :=
| Resolved (a : A)
| Rejected (e : Error).
Arguments Resolved {A} a.
Arguments Rejected {A} e.

Definition M (S A : Type) : Type := S → Result A * S.

Definition throw {S A} (e : Error) : M S A := fun s => (Rejected e, s).

#[global] Instance M_ret {S} : MRet (M S) :=
  fun A (a : A) s => (Resolved a, s).

#[global] Instance M_bind {S} : MBind (M S) :=
  fun A B (k : A → M S B) (m : M S A) s =>
    match m s with
    | (Resolved a, s') => k a s'
    | (Rejected e, s') => (Rejected e, s')
    end.

(** A write: the next entry of the script decides whether [f] is applied;
    the entry is consumed either way. *)
Definition write (ev : Event) (f : World → World) : M World unit :=
  fun w =>
    let w' := set_script (tail (script w)) (log ev w) in
    match head (script w) with
    | Some false => (Rejected StoreError, w')
    | _ => (Resolved tt, f w')
    end.

(** The next [n] writes persist. *)
Fixpoint next_writes_persist (n : nat) (s : list bool) : bool :=
  match n with
  | O => true
  | S n =>
      match s with
      | [] => true
      | b :: s => b && next_writes_persist n s
      end
  end.

(** ** The models, as the service calls them *)

Definition Cart_findOne (email : string) : M World (option Cart) :=
  fun w => (Resolved (carts w !! email), log (EvCartFindOne email) w).

(** [Product.findById(id)] casts the string [id] to an ObjectId before it
    queries: 24 hexadecimal digits, of either case (the route validation
    admits nothing else).  An ObjectId prints, and compares with a string,
    as its 24 digits in lower case, which is how [product_id] holds it. *)
Definition is_hex (c : ascii) : bool :=
  let n := nat_of_ascii c in
  (((48 <=? n) && (n <=? 57)) || ((97 <=? n) && (n <=? 102))
   || ((65 <=? n) && (n <=? 70)))%nat.

Definition lower_case (c : ascii) : ascii :=
  let n := nat_of_ascii c in
  if ((65 <=? n) && (n <=? 90))%nat then ascii_of_nat (n + 32) else c.

Fixpoint all_hex (id : string) : bool :=
  match id with
  | EmptyString => true
  | String c rest => is_hex c && all_hex rest
  end.

Fixpoint to_lower (id : string) : string :=
  match id with
  | EmptyString => EmptyString
  | String c rest => String (lower_case c) (to_lower rest)
  end.

Definition castObjectId (id : string) : option string :=
  if (String.length id =? 24)%nat && all_hex id
  then Some (to_lower id)
  else None.

(** The document of the collection whose [_id] is the ObjectId that [id]
    casts to, if [id] casts and there is one. *)
Definition product_by_id (id : string) (collection : list Product)
    : option Product :=
  match castObjectId id with
  | Some oid => find (fun p => String.eqb (product_id p) oid) collection
  | None => None
  end.

(** The query rejects with a [CastError] when [id] is no ObjectId. *)
Definition Product_findById (id : string) : M World (option Product) :=
  fun w =>
    match castObjectId id with
    | Some _ =>
        (Resolved (product_by_id id (products w)), log (EvProductFindById id) w)
    | None => (Rejected CastError, log (EvProductFindById id) w)
    end.

(** [Cart.create] resolves to the created document; a failed creation rejects
    the promise. *)
Definition Cart_create (doc : Cart) : M World (option Cart) :=
  write (EvCartCreate (cart_email doc))
        (set_carts (insert (cart_email doc) doc));;
  mret (Some doc).

(** [doc.save()] on a cart document; resolves to the document. *)
Definition Cart_save (doc : Cart) : M World Cart :=
  write (EvCartSave (cart_email doc))
        (set_carts (insert (cart_email doc) doc));;
  mret doc.

(** [doc.save()] on a user document. *)
Definition User_save (doc : User) : M World User :=
  write (EvUserSave (user_id doc))
        (set_users (insert (user_id doc) doc));;
  mret doc.

(** ** Array methods of the service *)

(** [items.product._id == productId] *)
Definition matches (productId : string) (items : CartItem) : bool :=
  String.eqb (product_id (product items)) productId.

(** [arr.forEach((ele, i) => { if (...) { index = i; } })] on [index = -1]:
    the loop keeps the last index whose element matches. *)
Fixpoint forEach_index (productId : string) (arr : list CartItem)
    (i : Z) (index : Z) : Z :=
  match arr with
  | [] => index
  | ele :: rest =>
      forEach_index productId rest (i + 1)
        (if matches productId ele then i else index)
  end.

(** [arr.splice(start, deleteCount)]: the array that is left.  A negative
    [start] counts from the end, and both bounds are clamped to the array. *)
Definition splice {A} (start deleteCount : Z) (arr : list A) : list A :=
  let len := Z.of_nat (length arr) in
  let actualStart :=
    if start <? 0 then Z.max (len + start) 0 else Z.min start len in
  let actualDeleteCount := Z.min (Z.max deleteCount 0) (len - actualStart) in
  firstn (Z.to_nat actualStart) arr
    ++ skipn (Z.to_nat (actualStart + actualDeleteCount)) arr.

(** [items.quantity = quantity] on one line item. *)
Definition set_quantity (quantity : Z) (items : CartItem) : CartItem :=
  {| product := product items; quantity := quantity |}.

(** The callback of [cartItems.map(...)] in [updateProductInCart]:
    [if (items.product._id.toString() == productId) items.quantity = quantity]. *)
Definition overwrite (productId : string) (quantity : Z) (items : CartItem)
    : CartItem :=
  if matches productId items then set_quantity quantity items else items.

(** [doc.cartItems = ...] on a cart document. *)
Definition set_cartItems (items : list CartItem) (doc : Cart) : Cart :=
  {| cart_id := cart_id doc; cart_email := cart_email doc; cartItems := items |}.

(** [user.walletMoney = ...] on a user document. *)
Definition set_walletMoney (balance : Z) (user : User) : User :=
  {| user_id := user_id user; user_email := user_email user;
     walletMoney := balance; address := address user |}.

(** ** cart.service.js *)

Definition getCartByUser (user : User) : M World Cart :=
  CartDoc ← Cart_findOne (user_email user);
  match CartDoc with
  | None => throw (ApiError httpStatus.NOT_FOUND "User does not have a cart")
  | Some CartDoc => mret CartDoc
  end.

Definition addProductToCart (user : User) (productId : string) (quantity : Z)
    : M World Cart :=
  CartDoc ← Cart_findOne (user_email user);
  ProductDoc ← Product_findById productId;
  match ProductDoc with
  | None =>
      throw (ApiError httpStatus.BAD_REQUEST "Product doesn't exist in database")
  | Some ProductDoc =>
      match CartDoc with
      | None =>
          productToCartDoc ←
            Cart_create
              {| cart_email := user_email user;
                 cartItems := [ {| product := ProductDoc; quantity := quantity |} ];
                 cart_id := user_id user |};
          match productToCartDoc with
          | None =>
              throw (ApiError httpStatus.INTERNAL_SERVER_ERROR
                       "Cart creation fails")
          | Some productToCartDoc => Cart_save productToCartDoc
          end
      | Some CartDoc =>
          if existsb (matches productId) (cartItems CartDoc)
          then
            throw (ApiError httpStatus.BAD_REQUEST
                     "Product already in cart. Use the cart sidebar to update or remove product from cart")
          else
            let CartDoc :=
              set_cartItems
                (cartItems CartDoc
                   ++ [ {| product := ProductDoc; quantity := quantity |} ])
                CartDoc in
            Cart_save CartDoc;;
            mret CartDoc
      end
  end.

Definition updateProductInCart (user : User) (productId : string) (quantity : Z)
    : M World Cart :=
  userCart ← Cart_findOne (user_email user);
  match userCart with
  | None =>
      throw (ApiError httpStatus.BAD_REQUEST
               "User does not have a cart. Use POST to create cart and add a product")
  | Some userCart =>
      ProductDoc ← Product_findById productId;
      match ProductDoc with
      | None =>
          throw (ApiError httpStatus.BAD_REQUEST
                   "Product doesn't exist in database")
      | Some _ =>
          match find (matches productId) (cartItems userCart) with
          | None => throw (ApiError httpStatus.BAD_REQUEST "Product not in cart")
          | Some _ =>
              let userCart :=
                set_cartItems
                  (map (overwrite productId quantity) (cartItems userCart))
                  userCart in
              result ← Cart_save userCart;
              mret result
          end
      end
  end.

Definition deleteProductFromCart (user : User) (productId : string)
    : M World Cart :=
  userCart ← Cart_findOne (user_email user);
  match userCart with
  | None =>
      throw (ApiError httpStatus.BAD_REQUEST
               "User does not have a cart. Use POST to create cart and add a product")
  | Some userCart =>
      match find (matches productId) (cartItems userCart) with
      | None => throw (ApiError httpStatus.BAD_REQUEST "Product not in cart")
      | Some _ =>
          let index := forEach_index productId (cartItems userCart) 0 (-1) in
          let userCart :=
            set_cartItems (splice index 1 (cartItems userCart)) userCart in
          result ← Cart_save userCart;
          mret result
      end
  end.

(** *** checkout

    [checkout] assigns to a field of the [user] document it was given, so the
    document is part of the state: a session is the caller's user document
    and the database. *)

Definition Session : Type := User * World.

Definition lift {A} (m : M World A) : M Session A :=
  fun s =>
    match m (snd s) with
    | (r, w') => (r, (fst s, w'))
    end.

(** Reading [user], and assigning to [user.walletMoney]. *)
Definition this_user : M Session User := fun s => (Resolved (fst s), s).

Definition assign_walletMoney (balance : Z) : M Session unit :=
  fun s => (Resolved tt, (set_walletMoney balance (fst s), snd s)).

(** [user.model.js]: [user.address !== config.default_address]. *)
Definition hasSetNonDefaultAddress (config : Config) : M Session bool :=
  fun s =>
    (Resolved (negb (String.eqb (address (fst s)) (default_address config))),
     (fst s, log (EvHasSetNonDefaultAddress (user_id (fst s))) (snd s))).

(** The loop [for (let element of cartItems) total = total + ...], on
    integers; [Double.cart_total] below is the same loop on binary64. *)
Definition cart_total (cartItems : list CartItem) : Z :=
  fold_left
    (fun total element => total + quantity element * cost (product element))
    cartItems 0.

(** In [user && !(await user.hasSetNonDefaultAddress())] the left operand is
    a document, which is truthy; the guard is the negated address check. *)
Definition checkout (config : Config) : M Session User :=
  user ← this_user;
  userCart ← lift (getCartByUser user);
  let cartItems := cartItems userCart in
  if (length cartItems =? 0)%nat
  then
    throw (ApiError httpStatus.BAD_REQUEST "User's cart doesn't have any product")
  else
    addressSet ← hasSetNonDefaultAddress config;
    if negb addressSet
    then throw (ApiError httpStatus.BAD_REQUEST "Address not set")
    else
      let total := cart_total cartItems in
      if walletMoney user <? total
      then
        throw (ApiError httpStatus.BAD_REQUEST "Wallet balance is insufficient")
      else
        let currentBalance := walletMoney user - total in
        assign_walletMoney currentBalance;;
        let userCart := set_cartItems [] userCart in
        lift (Cart_save userCart);;
        user ← this_user;
        lift (User_save user);;
        mret user.

(** ** The vocabulary of the specification *)

(** The total of a cart in the words of the specification: the sum, over the
    line items, of quantity times the cost stored in the item. *)
Definition line_total (items : CartItem) : Z :=
  quantity items * cost (product items).

Definition spec_total (cartItems : list CartItem) : Z :=
  foldr Z.add 0 (map line_total cartItems).

(** The uniqueness invariant: at most one line item per product identifier. *)
Definition product_ids (items : list CartItem) : list string :=
  map (fun items => product_id (product items)) items.

Definition unique_products (doc : Cart) : Prop :=
  NoDup (product_ids (cartItems doc)).

Definition carts_unique (w : World) : Prop :=
  map_Forall (fun _ doc => unique_products doc) (carts w).

(** Every cart document is stored under the e-mail it carries. *)
Definition carts_keyed (w : World) : Prop :=
  map_Forall (fun email doc => cart_email doc = email) (carts w).

(** The invariant on the one cart of a user. *)
Definition cart_unique_for (user : User) (w : World) : Prop :=
  ∀ doc, carts w !! user_email user = Some doc → unique_products doc.

(** ** The database after the reads of checkout *)

Definition after_findOne (user : User) (w : World) : World :=
  log (EvCartFindOne (user_email user)) w.

Definition after_address_check (user : User) (w : World) : World :=
  log (EvHasSetNonDefaultAddress (user_id user)) (after_findOne user w).

(** ** Sample data *)

Definition sample_config : Config := {| default_address := "ADDRESS_NOT_SET" |}.

Definition sample_p1 : Product := {| product_id := "5f71c1ca04c69a5874e9fd45"; cost := 100 |}.
Definition sample_p2 : Product := {| product_id := "5f71c1ca04c69a5874e9fd46"; cost := 50 |}.

(** The identifier of [sample_p1] as a client may send it: the same 24
    digits, letters in upper case. *)
Definition sample_p1_upper : string := "5F71C1CA04C69A5874E9FD45".

Definition sample_user (balance : Z) (addr : string) : User :=
  {| user_id := "600a695da6e5b6845906e726"; user_email := "crio-user@gmail.com";
     walletMoney := balance; address := addr |}.

Definition sample_cart (items : list CartItem) : Cart :=
  {| cart_id := "600a695da6e5b6845906e726"; cart_email := "crio-user@gmail.com";
     cartItems := items |}.

(** Two line items, 2 x 100 and 1 x 50: a total of 250. *)
Definition sample_items : list CartItem :=
  [ {| product := sample_p1; quantity := 2 |};
    {| product := sample_p2; quantity := 1 |} ].

(** A database holding the catalogue, the given user and, when [cart] is
    given, that user's cart. *)
Definition sample_world (cart : option Cart) (user : User) (outcomes : list bool)
    : World :=
  {| carts := match cart with
              | Some doc => {[ cart_email doc := doc ]}
              | None => ∅
              end;
     users := {[ user_id user := user ]};
     products := [sample_p1; sample_p2];
     script := outcomes;
     trace := [] |}.

(** A second customer, with a cart of one line item, beside the first. *)
Definition sample_other_cart : Cart :=
  {| cart_id := "600a695da6e5b6845906e727"; cart_email := "other-user@gmail.com";
     cartItems := [ {| product := sample_p2; quantity := 4 |} ] |}.

Definition sample_world_two (cart : Cart) (user : User) (outcomes : list bool)
    : World :=
  set_carts (insert (cart_email sample_other_cart) sample_other_cart)
    (sample_world (Some cart) user outcomes).

(** ** user.model.js: the validator of the password field

    [validate(value)] throws unless [value.match(/\d/)] and
    [value.match(/[a-zA-Z]/)] both find a character.  Neither expression is
    anchored, so each one asks for one character of its class anywhere in
    the string. *)

Inductive Validation : Type := Valid | Invalid (message : string).

(** [\d]: a decimal digit. *)
Definition is_digit (c : ascii) : bool :=
  let n := nat_of_ascii c in
  ((48 <=? n) && (n <=? 57))%nat.

(** [[a-zA-Z]]: a letter of either case. *)
Definition is_letter (c : ascii) : bool :=
  let n := nat_of_ascii c in
  (((97 <=? n) && (n <=? 122)) || ((65 <=? n) && (n <=? 90)))%nat.

(** [value.match(re)] is not [null], for [re] a single character class. *)
Fixpoint some_char (class : ascii → bool) (value : string) : bool :=
  match value with
  | EmptyString => false
  | String c rest => class c || some_char class rest
  end.

Definition password_validate (value : string) : Validation :=
  if negb (some_char is_digit value) || negb (some_char is_letter value)
  then Invalid "Password must contain at least one letter and one number"
  else Valid.

(** Every character of [value] is of the class. *)
Fixpoint every_char (class : ascii → bool) (value : string) : bool :=
  match value with
  | EmptyString => true
  | String c rest => class c && every_char class rest
  end.

(** ** A catalogue replaced behind the service *)

Definition set_products (collection : list Product) (w : World) : World :=
  {| carts := carts w; users := users w; products := collection;
     script := script w; trace := trace w |}.

(** ** checkout on binary64 numbers

    The schemas type [cost], [quantity] and [walletMoney] as [Number]: IEEE
    binary64.  Above 2^53, and on fractions, the sums, the products, the
    comparison and the difference of [checkout] round, and what [checkout]
    decides differs from what exact arithmetic decides.  This module is
    [getCartByUser] and [checkout] once more, with the documents and the
    arithmetic on the kernel's binary64 numbers; the catalogue, which
    [checkout] never reads, is left out of the database. *)
Module Double.

Record Product : Type := { product_id : string; cost : PrimFloat.float }.

Record CartItem : Type := { product : Product; quantity : PrimFloat.float }.

Record Cart : Type :=
  { cart_id : string; cart_email : string; cartItems : list CartItem }.

Record User : Type :=
  { user_id : string; user_email : string; walletMoney : PrimFloat.float;
    address : string }.

Record World : Type :=
  { carts : gmap string Cart;
    users : gmap string User;
    script : list bool;
    trace : list Event }.

Definition log (ev : Event) (w : World) : World :=
  {| carts := carts w; users := users w; script := script w;
     trace := trace w ++ [ev] |}.

Definition set_carts (f : gmap string Cart → gmap string Cart) (w : World) : World :=
  {| carts := f (carts w); users := users w; script := script w;
     trace := trace w |}.

Definition set_users (f : gmap string User → gmap string User) (w : World) : World :=
  {| carts := carts w; users := f (users w); script := script w;
     trace := trace w |}.

Definition set_script (s : list bool) (w : World) : World :=
  {| carts := carts w; users := users w; script := s; trace := trace w |}.

Definition write (ev : Event) (f : World → World) : M World unit :=
  fun w =>
    let w' := set_script (tail (script w)) (log ev w) in
    match head (script w) with
    | Some false => (Rejected StoreError, w')
    | _ => (Resolved tt, f w')
    end.

Definition Cart_findOne (email : string) : M World (option Cart) :=
  fun w => (Resolved (carts w !! email), log (EvCartFindOne email) w).

Definition Cart_save (doc : Cart) : M World Cart :=
  write (EvCartSave (cart_email doc))
        (set_carts (insert (cart_email doc) doc));;
  mret doc.

Definition User_save (doc : User) : M World User :=
  write (EvUserSave (user_id doc))
        (set_users (insert (user_id doc) doc));;
  mret doc.

Definition set_cartItems (items : list CartItem) (doc : Cart) : Cart :=
  {| cart_id := cart_id doc; cart_email := cart_email doc; cartItems := items |}.

Definition set_walletMoney (balance : PrimFloat.float) (user : User) : User :=
  {| user_id := user_id user; user_email := user_email user;
     walletMoney := balance; address := address user |}.

Definition getCartByUser (user : User) : M World Cart :=
  CartDoc ← Cart_findOne (user_email user);
  match CartDoc with
  | None => throw (ApiError httpStatus.NOT_FOUND "User does not have a cart")
  | Some CartDoc => mret CartDoc
  end.

Definition Session : Type := User * World.

Definition lift {A} (m : M World A) : M Session A :=
  fun s =>
    match m (snd s) with
    | (r, w') => (r, (fst s, w'))
    end.

Definition this_user : M Session User := fun s => (Resolved (fst s), s).

Definition assign_walletMoney (balance : PrimFloat.float) : M Session unit :=
  fun s => (Resolved tt, (set_walletMoney balance (fst s), snd s)).

Definition hasSetNonDefaultAddress (config : Config) : M Session bool :=
  fun s =>
    (Resolved (negb (String.eqb (address (fst s)) (default_address config))),
     (fst s, log (EvHasSetNonDefaultAddress (user_id (fst s))) (snd s))).

(** [let total = 0; for (...) total = total + element.quantity *
    element.product.cost], each product and each sum rounded to binary64. *)
Definition cart_total (cartItems : list CartItem) : PrimFloat.float :=
  fold_left
    (fun total element =>
       PrimFloat.add total (PrimFloat.mul (quantity element) (cost (product element))))
    cartItems PrimFloat.zero.

(** [user.walletMoney < total] is the binary64 comparison, false when either
    side is not a number; [user.walletMoney - total] the binary64
    difference. *)
Definition checkout (config : Config) : M Session User :=
  user ← this_user;
  userCart ← lift (getCartByUser user);
  let cartItems := cartItems userCart in
  if (length cartItems =? 0)%nat
  then
    throw (ApiError httpStatus.BAD_REQUEST "User's cart doesn't have any product")
  else
    addressSet ← hasSetNonDefaultAddress config;
    if negb addressSet
    then throw (ApiError httpStatus.BAD_REQUEST "Address not set")
    else
      let total := cart_total cartItems in
      if PrimFloat.ltb (walletMoney user) total
      then
        throw (ApiError httpStatus.BAD_REQUEST "Wallet balance is insufficient")
      else
        let currentBalance := PrimFloat.sub (walletMoney user) total in
        assign_walletMoney currentBalance;;
        let userCart := set_cartItems [] userCart in
        lift (Cart_save userCart);;
        user ← this_user;
        lift (User_save user);;
        mret user.

Definition carts_keyed (w : World) : Prop :=
  map_Forall (fun email doc => cart_email doc = email) (carts w).

End Double.

(** The binary64 number nearest to an integer of [0, 2^63), and the binary64
    image of a line item, of a cart and of a user of the integer model. *)
Definition double_of_Z (z : Z) : PrimFloat.float :=
  PrimFloat.of_uint63 (Uint63.of_Z z).

Definition double_item (items : CartItem) : Double.CartItem :=
  {| Double.product :=
       {| Double.product_id := product_id (product items);
          Double.cost := double_of_Z (cost (product items)) |};
     Double.quantity := double_of_Z (quantity items) |}.

Definition double_cart (doc : Cart) : Double.Cart :=
  {| Double.cart_id := cart_id doc; Double.cart_email := cart_email doc;
     Double.cartItems := map double_item (cartItems doc) |}.

Definition double_user (user : User) : Double.User :=
  {| Double.user_id := user_id user; Double.user_email := user_email user;
     Double.walletMoney := double_of_Z (walletMoney user);
     Double.address := address user |}.

(** A binary64 database holding the image of a user and of that user's cart. *)
Definition double_world (doc : Cart) (user : User) (outcomes : list bool)
    : Double.World :=
  {| Double.carts := {[ cart_email doc := double_cart doc ]};
     Double.users := {[ user_id user := double_user user ]};
     Double.script := outcomes;
     Double.trace := [] |}.

(** Three line items of quantity 1 whose costs, 2^53 + 2, 1 and 3, add up to
    2^53 + 6 exactly, and two whose costs, 2^53 and 1, add up to 2^53 + 1. *)
Definition sample_big_items : list CartItem :=
  [ {| product := {| product_id := product_id sample_p1; cost := 2 ^ 53 + 2 |};
       quantity := 1 |};
    {| product := {| product_id := product_id sample_p2; cost := 1 |};
       quantity := 1 |};
    {| product := {| product_id := "5f71c1ca04c69a5874e9fd47"; cost := 3 |};
       quantity := 1 |} ].

Definition sample_big_pair : list CartItem :=
  [ {| product := {| product_id := product_id sample_p1; cost := 2 ^ 53 |};
       quantity := 1 |};
    {| product := {| product_id := product_id sample_p2; cost := 1 |};
       quantity := 1 |} ].

(** * Properties *)

(** ** Array methods *)

Lemma matches_spec productId items :
  matches productId items = true ↔ product_id (product items) = productId.
Proof. unfold matches. apply String.eqb_eq. Qed.

Lemma existsb_matches_false productId arr :
  existsb (matches productId) arr = false ↔ productId ∉ product_ids arr.
Proof.
  induction arr as [|ele rest IH]; simpl.
  - split; [intros _; apply not_elem_of_nil | reflexivity].
  - rewrite orb_false_iff, IH, not_elem_of_cons.
    destruct (matches productId ele) eqn:E.
    + apply matches_spec in E. split; [intros [? _]; discriminate|].
      intros [Hne _]. congruence.
    + split; [intros [_ ?]|intros [_ ?]; tauto].
      split; [|assumption]. intros ->.
      assert (matches (product_id (product ele)) ele = true) as E'
          by (apply matches_spec; reflexivity).
      congruence.
Qed.

Lemma find_matches_existsb productId arr :
  find (matches productId) arr = None ↔ existsb (matches productId) arr = false.
Proof.
  induction arr as [|ele rest IH]; simpl; [tauto|].
  destruct (matches productId ele); simpl; [split; discriminate | exact IH].
Qed.

Lemma forEach_index_none productId arr i index :
  existsb (matches productId) arr = false →
  forEach_index productId arr i index = index.
Proof.
  revert i index. induction arr as [|ele rest IH]; intros i index H; simpl in *.
  - reflexivity.
  - apply orb_false_iff in H as [-> H]. apply IH, H.
Qed.

Lemma forEach_index_last productId l1 x l2 i index :
  matches productId x = true →
  existsb (matches productId) l2 = false →
  forEach_index productId (l1 ++ x :: l2) i index = i + Z.of_nat (length l1).
Proof.
  intros Hx Hl2. revert i index.
  induction l1 as [|ele rest IH]; intros i index; simpl.
  - rewrite Hx, forEach_index_none by assumption. lia.
  - rewrite IH. lia.
Qed.

Lemma last_match_split productId arr :
  existsb (matches productId) arr = true →
  ∃ l1 x l2, arr = (l1 ++ x :: l2)%list ∧ matches productId x = true
             ∧ existsb (matches productId) l2 = false.
Proof.
  induction arr as [|ele rest IH]; simpl; [discriminate|]. intros H.
  destruct (existsb (matches productId) rest) eqn:E.
  - destruct (IH eq_refl) as (l1 & x & l2 & -> & Hx & Hl2).
    exists (ele :: l1), x, l2. auto.
  - rewrite orb_false_r in H. exists [], ele, rest. auto.
Qed.

Lemma splice_one {A} (l1 l2 : list A) x :
  splice (Z.of_nat (length l1)) 1 (l1 ++ x :: l2) = (l1 ++ l2)%list.
Proof.
  unfold splice. rewrite length_app. simpl length.
  replace (Z.of_nat (length l1) <? 0) with false by (symmetry; apply Z.ltb_ge; lia).
  rewrite Z.min_l by lia. rewrite Z.max_l by lia. rewrite Z.min_l by lia.
  rewrite Nat2Z.id.
  replace (Z.to_nat (Z.of_nat (length l1) + 1)) with (S (length l1)) by lia.
  rewrite take_app_length.
  change (l1 ++ x :: l2)%list with (l1 ++ [x] ++ l2)%list. rewrite app_assoc.
  replace (S (length l1)) with (length (l1 ++ [x])) by (rewrite length_app; simpl; lia).
  rewrite drop_app_length. reflexivity.
Qed.

Lemma cart_total_spec cartItems :
  cart_total cartItems = spec_total cartItems.
Proof.
  unfold cart_total, spec_total.
  assert (∀ acc, fold_left
            (fun total element => total + quantity element * cost (product element))
            cartItems acc = acc + foldr Z.add 0 (map line_total cartItems)) as H.
  { induction cartItems as [|ele rest IH]; intros acc; simpl; [lia|].
    rewrite IH. unfold line_total. lia. }
  rewrite H. lia.
Qed.

(** ** Running a write *)

Lemma write_persists ev f w :
  next_writes_persist 1 (script w) = true →
  write ev f w = (Resolved tt, f (set_script (tail (script w)) (log ev w))).
Proof.
  unfold write. destruct (script w) as [|[] rest]; simpl; try reflexivity.
  discriminate.
Qed.

Lemma next_writes_persist_S n s :
  next_writes_persist (S n) s = true →
  next_writes_persist 1 s = true ∧ next_writes_persist n (tail s) = true.
Proof.
  destruct s as [|b s]; simpl.
  - intros _. split; [reflexivity|]. destruct n; reflexivity.
  - intros [-> H]%andb_true_iff. auto.
Qed.

(** ** The service, run *)

#[local] Arguments product_by_id : simpl never.
#[local] Arguments castObjectId : simpl never.
#[local] Arguments overwrite : simpl never.
#[local] Arguments cart_total : simpl never.

Ltac run :=
  repeat progress
    (unfold mbind, M_bind, mret, M_ret, throw, lift, this_user,
       assign_walletMoney, hasSetNonDefaultAddress, Cart_findOne,
       Product_findById, Cart_create, Cart_save, User_save, log;
     simpl).

Lemma deleteProductFromCart_run user productId w userCart l1 x l2 :
  carts w !! user_email user = Some userCart →
  cartItems userCart = (l1 ++ x :: l2)%list →
  matches productId x = true →
  existsb (matches productId) l2 = false →
  next_writes_persist 1 (script w) = true →
  ∃ w', deleteProductFromCart user productId w
        = (Resolved (set_cartItems (l1 ++ l2) userCart), w')
      ∧ carts w' = <[cart_email userCart := set_cartItems (l1 ++ l2) userCart]> (carts w)
      ∧ users w' = users w.
Proof.
  intros Hcart Hitems Hx Hl2 Hw.
  unfold deleteProductFromCart. run. rewrite Hcart.
  destruct (find (matches productId) (cartItems userCart)) eqn:Hfind.
  - rewrite Hitems.
    rewrite forEach_index_last by assumption. rewrite Z.add_0_l, splice_one.
    rewrite write_persists by exact Hw.
    eexists. split; [reflexivity|]. simpl. auto.
  - exfalso. apply find_matches_existsb in Hfind. rewrite Hitems in Hfind.
    rewrite existsb_app in Hfind. simpl in Hfind. rewrite Hx in Hfind.
    rewrite orb_true_r in Hfind. discriminate.
Qed.

Lemma product_by_id_cast id collection p :
  product_by_id id collection = Some p →
  castObjectId id = Some (product_id p).
Proof.
  unfold product_by_id. destruct (castObjectId id) as [oid|]; [|discriminate].
  intros H. apply find_some in H as [_ H].
  apply String.eqb_eq in H. congruence.
Qed.

(** The catalogue read, when the product is found. *)
Ltac found Hp :=
  rewrite (product_by_id_cast _ _ _ Hp); run; rewrite Hp.

Lemma find_matches_some productId arr :
  productId ∈ product_ids arr → ∃ x, find (matches productId) arr = Some x.
Proof.
  intros Hin. destruct (find (matches productId) arr) eqn:E; [eauto|].
  apply find_matches_existsb, existsb_matches_false in E. contradiction.
Qed.

Lemma existsb_matches_true productId arr :
  existsb (matches productId) arr = true ↔ productId ∈ product_ids arr.
Proof.
  destruct (existsb (matches productId) arr) eqn:E.
  - split; [intros _|reflexivity].
    destruct (decide (productId ∈ product_ids arr)) as [|Hn]; [assumption|].
    apply existsb_matches_false in Hn. congruence.
  - apply existsb_matches_false in E. split; [discriminate|contradiction].
Qed.

Lemma updateProductInCart_run user productId quantity w userCart p :
  carts w !! user_email user = Some userCart →
  product_by_id productId (products w) = Some p →
  productId ∈ product_ids (cartItems userCart) →
  next_writes_persist 1 (script w) = true →
  let result :=
    set_cartItems (map (overwrite productId quantity) (cartItems userCart))
      userCart in
  ∃ w', updateProductInCart user productId quantity w = (Resolved result, w')
      ∧ carts w' = <[cart_email userCart := result]> (carts w)
      ∧ users w' = users w.
Proof.
  intros Hcart Hp Hin Hw result.
  unfold updateProductInCart. run. rewrite Hcart. run. found Hp.
  destruct (find_matches_some _ _ Hin) as [x ->].
  rewrite write_persists by exact Hw.
  eexists. split; [reflexivity|]. simpl. auto.
Qed.

Lemma addProductToCart_run_push user productId quantity w CartDoc p :
  carts w !! user_email user = Some CartDoc →
  product_by_id productId (products w) = Some p →
  productId ∉ product_ids (cartItems CartDoc) →
  next_writes_persist 1 (script w) = true →
  let result :=
    set_cartItems
      (cartItems CartDoc ++ [ {| product := p; quantity := quantity |} ])
      CartDoc in
  ∃ w', addProductToCart user productId quantity w = (Resolved result, w')
      ∧ carts w' = <[cart_email CartDoc := result]> (carts w)
      ∧ users w' = users w.
Proof.
  intros Hcart Hp Hin Hw result.
  unfold addProductToCart. run. found Hp. rewrite Hcart.
  apply existsb_matches_false in Hin. rewrite Hin.
  run. rewrite write_persists by exact Hw.
  eexists. split; [reflexivity|]. simpl. auto.
Qed.

Lemma addProductToCart_run_present user productId quantity w CartDoc p :
  carts w !! user_email user = Some CartDoc →
  product_by_id productId (products w) = Some p →
  productId ∈ product_ids (cartItems CartDoc) →
  ∃ w', addProductToCart user productId quantity w
        = (Rejected
             (ApiError httpStatus.BAD_REQUEST
                "Product already in cart. Use the cart sidebar to update or remove product from cart"),
           w')
      ∧ carts w' = carts w ∧ users w' = users w ∧ script w' = script w.
Proof.
  intros Hcart Hp Hin.
  unfold addProductToCart. run. found Hp. rewrite Hcart.
  apply existsb_matches_true in Hin. rewrite Hin.
  eexists. split; [reflexivity|]. simpl. auto.
Qed.

(** *** checkout, one check at a time *)

Lemma checkout_run_no_cart config user w :
  carts w !! user_email user = None →
  checkout config (user, w)
  = (Rejected (ApiError httpStatus.NOT_FOUND "User does not have a cart"),
     (user, after_findOne user w)).
Proof.
  intros Hcart. unfold checkout, getCartByUser. run. rewrite Hcart. reflexivity.
Qed.

Lemma checkout_run_empty config user w userCart :
  carts w !! user_email user = Some userCart →
  cartItems userCart = [] →
  checkout config (user, w)
  = (Rejected
       (ApiError httpStatus.BAD_REQUEST "User's cart doesn't have any product"),
     (user, after_findOne user w)).
Proof.
  intros Hcart Hitems. unfold checkout, getCartByUser. run.
  rewrite Hcart. run. rewrite Hitems. reflexivity.
Qed.

Lemma checkout_run_address config user w userCart :
  carts w !! user_email user = Some userCart →
  cartItems userCart ≠ [] →
  address user = default_address config →
  checkout config (user, w)
  = (Rejected (ApiError httpStatus.BAD_REQUEST "Address not set"),
     (user, after_address_check user w)).
Proof.
  intros Hcart Hitems Haddr. unfold checkout, getCartByUser. run.
  rewrite Hcart. run.
  destruct (cartItems userCart) as [|ele rest]; [contradiction|]. run.
  rewrite Haddr, String.eqb_refl. reflexivity.
Qed.

Lemma checkout_run_balance config user w userCart :
  carts w !! user_email user = Some userCart →
  cartItems userCart ≠ [] →
  address user ≠ default_address config →
  walletMoney user < cart_total (cartItems userCart) →
  checkout config (user, w)
  = (Rejected (ApiError httpStatus.BAD_REQUEST "Wallet balance is insufficient"),
     (user, after_address_check user w)).
Proof.
  intros Hcart Hitems Haddr Hlt. unfold checkout, getCartByUser. run.
  rewrite Hcart. run.
  destruct (cartItems userCart) as [|ele rest] eqn:E; [contradiction|]. run.
  apply String.eqb_neq in Haddr. rewrite Haddr. run.
  apply Z.ltb_lt in Hlt. rewrite Hlt. reflexivity.
Qed.

(** Once the four checks have passed, checkout is the assignment to
    [user.walletMoney] followed by the two writes, the cart first. *)
Lemma checkout_run_settle config user w userCart :
  carts w !! user_email user = Some userCart →
  cartItems userCart ≠ [] →
  address user ≠ default_address config →
  cart_total (cartItems userCart) ≤ walletMoney user →
  let user' :=
    set_walletMoney (walletMoney user - cart_total (cartItems userCart)) user in
  let userCart' := set_cartItems [] userCart in
  checkout config (user, w)
  = match write (EvCartSave (cart_email userCart))
            (set_carts (insert (cart_email userCart) userCart'))
            (after_address_check user w) with
    | (Rejected e, w1) => (Rejected e, (user', w1))
    | (Resolved _, w1) =>
        match write (EvUserSave (user_id user))
                (set_users (insert (user_id user) user')) w1 with
        | (Rejected e, w2) => (Rejected e, (user', w2))
        | (Resolved _, w2) => (Resolved user', (user', w2))
        end
    end.
Proof.
  intros Hcart Hitems Haddr Hle user' userCart'.
  unfold checkout, getCartByUser. run.
  rewrite Hcart. run.
  destruct (cartItems userCart) as [|ele rest] eqn:E; [contradiction|]. run.
  apply String.eqb_neq in Haddr. rewrite Haddr. run.
  apply Z.ltb_ge in Hle. rewrite Hle. run.
  subst user' userCart'.
  unfold after_address_check, after_findOne, write, log. simpl.
  destruct (script w) as [|[] [|[] ?]]; reflexivity.
Qed.

(** ** Checkout: settlement *)

Lemma sample_world_keyed doc user outcomes :
  carts_keyed (sample_world (Some doc) user outcomes).
Proof.
  unfold carts_keyed. simpl. apply map_Forall_singleton. reflexivity.
Qed.




(** ** Checkout: the order of the checks *)




(** ** The uniqueness invariant *)

Lemma product_ids_app l1 l2 :
  product_ids (l1 ++ l2) = (product_ids l1 ++ product_ids l2)%list.
Proof. unfold product_ids. apply map_app. Qed.

Lemma product_ids_overwrite productId quantity items :
  product_ids (map (overwrite productId quantity) items) = product_ids items.
Proof.
  unfold product_ids. rewrite map_map. apply map_ext. intros ele.
  unfold overwrite. destruct (matches productId ele); reflexivity.
Qed.

Lemma unique_push doc p quantity :
  unique_products doc →
  product_id p ∉ product_ids (cartItems doc) →
  unique_products
    (set_cartItems (cartItems doc ++ [ {| product := p; quantity := quantity |} ])
       doc).
Proof.
  unfold unique_products. simpl. intros Hnd Hnin.
  rewrite product_ids_app. apply NoDup_app. split; [assumption|]. split.
  - intros id Hid Hin. simpl in Hin. apply list_elem_of_singleton in Hin.
    subst id. contradiction.
  - simpl. apply NoDup_singleton.
Qed.

Lemma unique_overwrite doc productId quantity :
  unique_products doc →
  unique_products
    (set_cartItems (map (overwrite productId quantity) (cartItems doc)) doc).
Proof.
  unfold unique_products. simpl. rewrite product_ids_overwrite. trivial.
Qed.

Lemma unique_remove doc l1 x l2 :
  unique_products doc →
  cartItems doc = (l1 ++ x :: l2)%list →
  unique_products (set_cartItems (l1 ++ l2) doc).
Proof.
  unfold unique_products. simpl. intros Hnd Heq. rewrite Heq in Hnd.
  rewrite product_ids_app in *. simpl in Hnd.
  apply NoDup_app in Hnd as (H1 & H12 & H2).
  apply NoDup_cons in H2 as [_ H2].
  apply NoDup_app. split; [assumption|]. split; [|assumption].
  intros id Hid Hin. apply (H12 id Hid). right. exact Hin.
Qed.

Lemma unique_emptied doc : unique_products (set_cartItems [] doc).
Proof. unfold unique_products. simpl. apply NoDup_nil_2. Qed.

Lemma write_carts_unique ev key doc w :
  carts_unique w →
  unique_products doc →
  carts_unique (snd (write ev (set_carts (insert key doc)) w)).
Proof.
  unfold carts_unique, write. intros Hw Hdoc.
  destruct (head (script w)) as [[]|]; simpl; try assumption;
    apply map_Forall_insert_2; assumption.
Qed.

Lemma write_users_carts_unique ev f w :
  carts_unique w → carts_unique (snd (write ev (set_users f) w)).
Proof.
  unfold carts_unique, write. intros Hw.
  destruct (head (script w)) as [[]|]; simpl; assumption.
Qed.

Lemma carts_unique_for user w : carts_unique w → cart_unique_for user w.
Proof. intros Hinv doc Hdoc. exact (Hinv _ _ Hdoc). Qed.

(** What a write leaves behind, whatever its outcome. *)
Ltac after_write :=
  match goal with
  | |- context [write ?ev ?f ?w0] =>
      let H := fresh "Hafter" in
      let r := fresh "r" in
      let w1 := fresh "w" in
      assert (carts_unique w0 → carts_unique (snd (write ev f w0))) as H;
      [ intros ?;
        first [ apply write_carts_unique | apply write_users_carts_unique ]
      | destruct (write ev f w0) as [[r|r] w1]; simpl in H |- * ]
  end.

Lemma updateProductInCart_unique user productId quantity w :
  cart_unique_for user w →
  (∀ doc, fst (updateProductInCart user productId quantity w) = Resolved doc →
          unique_products doc)
  ∧ (carts_unique w →
     carts_unique (snd (updateProductInCart user productId quantity w))).
Proof.
  intros Hinv. unfold updateProductInCart. run.
  destruct (carts w !! user_email user) as [userCart|] eqn:Hcart; run;
    [|split; [discriminate|trivial]].
  destruct (castObjectId productId) as [oid|]; run;
    [|split; [discriminate|trivial]].
  destruct (product_by_id productId (products w)) as [p|];
    [|split; [discriminate|trivial]].
  destruct (find (matches productId) (cartItems userCart));
    [|split; [discriminate|trivial]].
  pose proof (unique_overwrite userCart productId quantity (Hinv _ Hcart)) as Hu.
  after_write; [assumption|assumption| |].
  - split; [intros doc [= <-]; exact Hu|assumption].
  - split; [discriminate|assumption].
Qed.

Lemma deleteProductFromCart_unique user productId w :
  cart_unique_for user w →
  (∀ doc, fst (deleteProductFromCart user productId w) = Resolved doc →
          unique_products doc)
  ∧ (carts_unique w →
     carts_unique (snd (deleteProductFromCart user productId w))).
Proof.
  intros Hinv. unfold deleteProductFromCart. run.
  destruct (carts w !! user_email user) as [userCart|] eqn:Hcart; run;
    [|split; [discriminate|trivial]].
  destruct (find (matches productId) (cartItems userCart)) eqn:Hfind;
    [|split; [discriminate|trivial]].
  assert (existsb (matches productId) (cartItems userCart) = true) as Hex.
  { destruct (existsb (matches productId) (cartItems userCart)) eqn:E;
      [reflexivity|]. apply find_matches_existsb in E. congruence. }
  destruct (last_match_split _ _ Hex) as (l1 & x & l2 & Hitems & Hx & Hl2).
  pose proof (unique_remove userCart l1 x l2 (Hinv _ Hcart) Hitems) as Hu.
  rewrite Hitems. rewrite forEach_index_last by assumption.
  rewrite Z.add_0_l, splice_one.
  after_write; [assumption|assumption| |].
  - split; [intros doc [= <-]; exact Hu|assumption].
  - split; [discriminate|assumption].
Qed.

Lemma checkout_unique config user w :
  carts_unique w →
  carts_unique (snd (snd (checkout config (user, w)))).
Proof.
  intros Hinv. unfold checkout, getCartByUser. run.
  destruct (carts w !! user_email user) as [userCart|] eqn:Hcart; run;
    [|assumption].
  destruct (cartItems userCart) as [|ele rest]; run; [assumption|].
  destruct (negb (address user =? default_address config)%string); run;
    [|assumption].
  destruct (walletMoney user <? cart_total (ele :: rest)); run; [assumption|].
  after_write; [assumption|apply unique_emptied| |auto].
  after_write; auto.
Qed.

Lemma checkout_unique_for config user w :
  cart_unique_for user w →
  cart_unique_for user (snd (snd (checkout config (user, w)))).
Proof.
  intros Hinv. unfold checkout, getCartByUser. run.
  destruct (carts w !! user_email user) as [userCart|] eqn:Hcart; run;
    [|assumption].
  destruct (cartItems userCart) as [|ele rest]; run; [assumption|].
  destruct (negb (address user =? default_address config)%string); run;
    [|assumption].
  destruct (walletMoney user <? cart_total (ele :: rest)); run; [assumption|].
  assert (cart_unique_for user
            (set_carts (insert (cart_email userCart) (set_cartItems [] userCart)) w))
    as Hemptied.
  { intros doc. unfold set_carts. simpl. rewrite lookup_insert.
    case_decide; [intros [= <-]; apply unique_emptied | apply Hinv]. }
  unfold cart_unique_for, write, set_carts, set_users, set_script in *.
  simpl in *.
  destruct (script w) as [|[] [|[] ?]]; simpl; assumption.
Qed.

(** C5, on the code.  [updateProductInCart], [deleteProductFromCart] and
    [checkout] keep the invariant, at most one line item per product
    identifier; [addProductToCart] does not.  Its test for a line item
    already in the cart compares the stored identifier with the string as
    it was given, while the catalogue is queried with the ObjectId the
    string casts to: given the identifier of a product that is already in
    the cart with its letters in upper case, it finds the product, finds
    no line item for it, and appends a second line item for the same
    product. *)
Theorem addProductToCart_upper_case_id_breaks_uniqueness :
  let user := sample_user 300 "12 Main Street" in
  let doc := sample_cart [ {| product := sample_p1; quantity := 2 |} ] in
  let w := sample_world (Some doc) user [] in
  unique_products doc
  ∧ castObjectId sample_p1_upper = Some (product_id sample_p1)
  ∧ fst (addProductToCart user sample_p1_upper 1 w)
    = Resolved
        (sample_cart [ {| product := sample_p1; quantity := 2 |};
                       {| product := sample_p1; quantity := 1 |} ])
  ∧ ¬ unique_products
        (sample_cart [ {| product := sample_p1; quantity := 2 |};
                       {| product := sample_p1; quantity := 1 |} ])
  ∧ ¬ carts_unique (snd (addProductToCart user sample_p1_upper 1 w)).
Proof.
  intros user doc w.
  assert (¬ unique_products
              (sample_cart [ {| product := sample_p1; quantity := 2 |};
                             {| product := sample_p1; quantity := 1 |} ]))
    as Hdup.
  { unfold unique_products. simpl. intros Hnd.
    apply NoDup_cons in Hnd as [Hnin _]. apply Hnin, list_elem_of_here. }
  split; [unfold unique_products; simpl; apply NoDup_singleton|].
  split; [vm_compute; reflexivity|].
  split; [vm_compute; reflexivity|].
  split; [exact Hdup|].
  intros Hall. apply Hdup.
  apply (Hall (user_email user)). vm_compute. reflexivity.
Qed.

(** The other three operations keep the invariant, on the cart they resolve
    to and on every stored cart. *)
Lemma update_delete_checkout_keep_uniqueness
    config user productId quantity w :
  cart_unique_for user w →
  (∀ doc, fst (updateProductInCart user productId quantity w) = Resolved doc →
          unique_products doc)
  ∧ (∀ doc, fst (deleteProductFromCart user productId w) = Resolved doc →
            unique_products doc)
  ∧ cart_unique_for user (snd (snd (checkout config (user, w))))
  ∧ (carts_unique w →
     carts_unique (snd (updateProductInCart user productId quantity w))
     ∧ carts_unique (snd (deleteProductFromCart user productId w))
     ∧ carts_unique (snd (snd (checkout config (user, w))))).
Proof.
  intros Hinv. repeat apply conj.
  - apply updateProductInCart_unique, Hinv.
  - apply deleteProductFromCart_unique, Hinv.
  - apply checkout_unique_for, Hinv.
  - intros Hall. repeat apply conj.
    + apply updateProductInCart_unique; assumption.
    + apply deleteProductFromCart_unique; assumption.
    + apply checkout_unique, Hall.
Qed.

(** ** Adding a product *)

(** C6, as the code has it.  For a user who has a cart and a product that is
    in the catalogue: when a line item of the cart carries the identifier
    text that was given, [addProductToCart] rejects with [BAD_REQUEST], the
    status of the kind InvalidInput, and the message "Product already in
    cart. Use the cart sidebar to update or remove product from cart", and
    the stored carts are left as they were; when no line item of the cart
    refers to the product, neither by the text given nor by the identifier
    of the product found, and the write persists, it resolves to the cart
    with the line item of the catalogue's product and the given quantity
    appended at the end, and stores that cart. *)
Theorem addProductToCart_existing_cart user productId quantity w CartDoc p :
  carts w !! user_email user = Some CartDoc →
  product_by_id productId (products w) = Some p →
  (productId ∈ product_ids (cartItems CartDoc) →
   let e :=
     ApiError httpStatus.BAD_REQUEST
       "Product already in cart. Use the cart sidebar to update or remove product from cart" in
   ∃ w',
     addProductToCart user productId quantity w = (Rejected e, w')
     ∧ kind_of e = Some InvalidInput
     ∧ carts w' = carts w ∧ users w' = users w ∧ script w' = script w)
  ∧ (productId ∉ product_ids (cartItems CartDoc) →
     product_id p ∉ product_ids (cartItems CartDoc) →
     next_writes_persist 1 (script w) = true →
     let result :=
       set_cartItems
         (cartItems CartDoc ++ [ {| product := p; quantity := quantity |} ])
         CartDoc in
     ∃ w',
       addProductToCart user productId quantity w = (Resolved result, w')
       ∧ carts w' = <[cart_email CartDoc := result]> (carts w)
       ∧ users w' = users w
       ∧ (unique_products CartDoc → unique_products result)).
Proof.
  intros Hcart Hp. split.
  - intros Hin e.
    destruct (addProductToCart_run_present user productId quantity w CartDoc p
                Hcart Hp Hin) as (w' & Hrun & Hc & Hu & Hs).
    exists w'. repeat split; assumption.
  - intros Hnin Hfresh Hw result.
    destruct (addProductToCart_run_push user productId quantity w CartDoc p
                Hcart Hp Hnin Hw) as (w' & Hrun & Hc & Hu).
    exists w'. repeat split; try assumption.
    intros Hunique. apply unique_push; assumption.
Qed.

Lemma addProductToCart_existing_cart_witness :
  let user := sample_user 300 "12 Main Street" in
  let doc := sample_cart [ {| product := sample_p1; quantity := 2 |} ] in
  let w := sample_world (Some doc) user [] in
  (∃ w',
     addProductToCart user (product_id sample_p1) 5 w
     = (Rejected
          (ApiError httpStatus.BAD_REQUEST
             "Product already in cart. Use the cart sidebar to update or remove product from cart"),
        w')
     ∧ carts w' = carts w)
  ∧ (∃ w',
       addProductToCart user (product_id sample_p2) 1 w
       = (Resolved (sample_cart sample_items), w')
       ∧ carts w' !! user_email user = Some (sample_cart sample_items)).
Proof.
  intros user doc w. split.
  - destruct (addProductToCart_existing_cart user (product_id sample_p1) 5 w
                doc sample_p1 eq_refl eq_refl) as [Hpresent _].
    destruct Hpresent as (w' & Hrun & _ & Hcarts & _).
    { simpl. apply list_elem_of_here. }
    exists w'. split; assumption.
  - destruct (addProductToCart_existing_cart user (product_id sample_p2) 1 w
                doc sample_p2 eq_refl eq_refl) as [_ Habsent].
    destruct Habsent as (w' & Hrun & Hcarts & _).
    { simpl. intros Hin. apply list_elem_of_singleton in Hin. discriminate. }
    { simpl. intros Hin. apply list_elem_of_singleton in Hin. discriminate. }
    { reflexivity. }
    exists w'. split; [exact Hrun|]. rewrite Hcarts. apply lookup_insert_eq.
Defined.

(** C6, against the claim: adding a product that the cart already holds is
    rejected with status 400, which is the kind InvalidInput and not the kind
    Conflict, and the message is not "product already in cart". *)
Lemma addProductToCart_duplicate_is_bad_request :
  let user := sample_user 300 "12 Main Street" in
  let w :=
    sample_world
      (Some (sample_cart [ {| product := sample_p1; quantity := 2 |} ])) user [] in
  ∃ e,
    fst (addProductToCart user (product_id sample_p1) 5 w) = Rejected e
    ∧ kind_of e = Some InvalidInput
    ∧ kind_of e ≠ Some Conflict
    ∧ e ≠ ApiError httpStatus.CONFLICT "product already in cart"
    ∧ e ≠ ApiError httpStatus.BAD_REQUEST "product already in cart".
Proof.
  eexists. split; [vm_compute; reflexivity|].
  repeat split; discriminate.
Qed.

(** ** Updating a quantity *)

Lemma addProductToCart_run_create user productId quantity w p :
  carts w !! user_email user = None →
  product_by_id productId (products w) = Some p →
  next_writes_persist 2 (script w) = true →
  let created :=
    {| cart_id := user_id user; cart_email := user_email user;
       cartItems := [ {| product := p; quantity := quantity |} ] |} in
  ∃ w', addProductToCart user productId quantity w = (Resolved created, w')
      ∧ carts w' = <[user_email user := created]> (carts w)
      ∧ users w' = users w
      ∧ products w' = products w
      ∧ script w' = tail (tail (script w)).
Proof.
  intros Hcart Hp Hw created.
  apply next_writes_persist_S in Hw as [Hw1 Hw2].
  unfold addProductToCart. run. found Hp. rewrite Hcart. run.
  rewrite write_persists by exact Hw1. run.
  rewrite write_persists by exact Hw2.
  eexists. split; [reflexivity|]. simpl.
  rewrite insert_insert_eq. auto.
Qed.

(** C7, as the code has it.  For every cart holding a line item that
    carries the identifier text given, with the product in the catalogue
    and the write persisting, [updateProductInCart] resolves to the cart in
    which every such line item has exactly the new quantity, whatever its
    quantity was, and stores that cart; the number of line items is
    unchanged.  And for a user without a cart and an identifier given as the
    store prints it, adding the product with one quantity and then updating
    it to another leaves a single line item, with the second quantity. *)
Theorem updateProductInCart_overwrites user productId quantity w :
  (∀ userCart p,
     carts w !! user_email user = Some userCart →
     product_by_id productId (products w) = Some p →
     productId ∈ product_ids (cartItems userCart) →
     next_writes_persist 1 (script w) = true →
     let result :=
       set_cartItems (map (overwrite productId quantity) (cartItems userCart))
         userCart in
     ∃ w',
       updateProductInCart user productId quantity w = (Resolved result, w')
       ∧ carts w' = <[cart_email userCart := result]> (carts w)
       ∧ length (cartItems result) = length (cartItems userCart)
       ∧ (∀ (i : nat) old,
            cartItems userCart !! i = Some old →
            product_id (product old) = productId →
            cartItems result !! i
            = Some {| product := product old; quantity := quantity |}))
  ∧ (∀ p first,
       carts w !! user_email user = None →
       product_by_id productId (products w) = Some p →
       product_id p = productId →
       next_writes_persist 3 (script w) = true →
       ∃ added w1 result w2,
         addProductToCart user productId first w = (Resolved added, w1)
         ∧ cartItems added = [ {| product := p; quantity := first |} ]
         ∧ updateProductInCart user productId quantity w1 = (Resolved result, w2)
         ∧ cartItems result = [ {| product := p; quantity := quantity |} ]
         ∧ carts w2 !! user_email user = Some result).
Proof.
  split.
  - intros userCart p Hcart Hp Hin Hw result.
    destruct (updateProductInCart_run user productId quantity w userCart p
                Hcart Hp Hin Hw) as (w' & Hrun & Hcarts & _).
    exists w'. split; [exact Hrun|]. split; [exact Hcarts|]. split.
    + subst result. simpl. apply length_map.
    + intros i old Hold Hid. subst result. simpl.
      change (map (overwrite productId quantity) (cartItems userCart))
        with (overwrite productId quantity <$> cartItems userCart).
      rewrite list_lookup_fmap, Hold. simpl. unfold overwrite.
      apply matches_spec in Hid. rewrite Hid. reflexivity.
  - intros p first Hcart Hp Hid Hw.
    assert (next_writes_persist 2 (script w) = true) as Hw2.
    { destruct (script w) as [|[] [|[] ?]]; simpl in *; auto. }
    destruct (addProductToCart_run_create user productId first w p Hcart Hp Hw2)
      as (w1 & Hadd & Hcarts1 & _ & Hproducts1 & Hscript1).
    destruct (updateProductInCart_run user productId quantity w1
                {| cart_id := user_id user; cart_email := user_email user;
                   cartItems := [ {| product := p; quantity := first |} ] |} p)
      as (w2 & Hupdate & Hcarts2 & _).
    + rewrite Hcarts1. apply lookup_insert_eq.
    + rewrite Hproducts1. exact Hp.
    + simpl. rewrite Hid. apply list_elem_of_here.
    + rewrite Hscript1.
      destruct (script w) as [|[] [|[] [|[] ?]]]; simpl in *; auto.
    + do 4 eexists. split; [exact Hadd|]. split; [reflexivity|].
      split; [exact Hupdate|]. simpl. split.
      * unfold overwrite.
        assert (matches productId {| product := p; quantity := first |} = true)
          as -> by (apply matches_spec; exact Hid).
        reflexivity.
      * rewrite Hcarts2. simpl. apply lookup_insert_eq.
Qed.

Lemma updateProductInCart_overwrites_witness :
  let user := sample_user 300 "12 Main Street" in
  let w0 := sample_world None user [] in
  let added := addProductToCart user (product_id sample_p1) 2 w0 in
  fst added = Resolved (sample_cart [ {| product := sample_p1; quantity := 2 |} ])
  ∧ ∃ w',
      updateProductInCart user (product_id sample_p1) 5 (snd added)
      = (Resolved (sample_cart [ {| product := sample_p1; quantity := 5 |} ]), w')
      ∧ carts w' !! user_email user
        = Some (sample_cart [ {| product := sample_p1; quantity := 5 |} ]).
Proof.
  intros user w0 added. split; [vm_compute; reflexivity|].
  destruct (updateProductInCart_overwrites user (product_id sample_p1) 5
              (snd added)) as [Hoverwrite _].
  destruct (Hoverwrite
              (sample_cart [ {| product := sample_p1; quantity := 2 |} ])
              sample_p1)
    as (w' & Hrun & Hcarts & _).
  - vm_compute. reflexivity.
  - reflexivity.
  - simpl. apply list_elem_of_here.
  - reflexivity.
  - exists w'. split; [exact Hrun|]. rewrite Hcarts. apply lookup_insert_eq.
Defined.

(** C7, against the claim: a cart holds a line item for a product that has
    left the catalogue, and the update of its quantity is rejected with
    "Product doesn't exist in database", the cart left as it was; and with
    the product in the catalogue but its identifier given in upper case,
    the update is rejected with "Product not in cart". *)
Lemma updateProductInCart_needs_the_catalogue :
  let user := sample_user 300 "12 Main Street" in
  let w := sample_world (Some (sample_cart sample_items)) user [] in
  product_id sample_p1 ∈ product_ids sample_items
  ∧ fst (updateProductInCart user (product_id sample_p1) 5
           (set_products [sample_p2] w))
    = Rejected (ApiError httpStatus.BAD_REQUEST "Product doesn't exist in database")
  ∧ carts (snd (updateProductInCart user (product_id sample_p1) 5
                  (set_products [sample_p2] w)))
    = carts w
  ∧ castObjectId sample_p1_upper = Some (product_id sample_p1)
  ∧ fst (updateProductInCart user sample_p1_upper 5 w)
    = Rejected (ApiError httpStatus.BAD_REQUEST "Product not in cart").
Proof.
  intros user w. split; [simpl; apply list_elem_of_here|].
  repeat apply conj; vm_compute; reflexivity.
Qed.

(** ** Deleting a product *)

(** C8.  For every cart holding a line item for [productId], with the write
    persisting, [deleteProductFromCart] resolves to, and stores, the cart
    without one line item: the item list splits as [l1 ++ x :: l2] with [x] a
    line item for [productId], and what is left is [l1 ++ l2], one item
    shorter, every other line item in place and untouched, whatever the
    quantities are.  When the cart has one line item per product, no line
    item for [productId] is left. *)
Theorem deleteProductFromCart_removes_one user productId w userCart :
  carts w !! user_email user = Some userCart →
  productId ∈ product_ids (cartItems userCart) →
  next_writes_persist 1 (script w) = true →
  ∃ l1 x l2 w',
    cartItems userCart = (l1 ++ x :: l2)%list
    ∧ product_id (product x) = productId
    ∧ deleteProductFromCart user productId w
      = (Resolved (set_cartItems (l1 ++ l2) userCart), w')
    ∧ carts w' = <[cart_email userCart := set_cartItems (l1 ++ l2) userCart]> (carts w)
    ∧ S (length (l1 ++ l2)) = length (cartItems userCart)
    ∧ (unique_products userCart → productId ∉ product_ids (l1 ++ l2)).
Proof.
  intros Hcart Hin Hw.
  apply existsb_matches_true in Hin.
  destruct (last_match_split _ _ Hin) as (l1 & x & l2 & Hitems & Hx & Hl2).
  destruct (deleteProductFromCart_run user productId w userCart l1 x l2
              Hcart Hitems Hx Hl2 Hw) as (w' & Hrun & Hcarts & _).
  exists l1, x, l2, w'. split; [exact Hitems|].
  apply matches_spec in Hx. split; [exact Hx|].
  split; [exact Hrun|]. split; [exact Hcarts|]. split.
  - rewrite Hitems, !length_app. simpl. lia.
  - unfold unique_products. rewrite Hitems, !product_ids_app. simpl.
    rewrite Hx. intros Hnd Hleft.
    apply NoDup_app in Hnd as (_ & H12 & H2).
    apply NoDup_cons in H2 as [Hx2 _].
    apply elem_of_app in Hleft as [Hleft|Hleft]; [|contradiction].
    apply (H12 _ Hleft). left.
Qed.

Lemma deleteProductFromCart_removes_one_witness :
  let user := sample_user 300 "12 Main Street" in
  let doc :=
    sample_cart [ {| product := sample_p1; quantity := 2 |};
                  {| product := sample_p2; quantity := 2 |} ] in
  let w := sample_world (Some doc) user [] in
  ∃ result w',
    deleteProductFromCart user (product_id sample_p1) w = (Resolved result, w')
    ∧ length (cartItems result) = 1%nat
    ∧ cartItems result = [ {| product := sample_p2; quantity := 2 |} ].
Proof.
  intros user doc w.
  destruct (deleteProductFromCart_removes_one user (product_id sample_p1) w doc)
    as (l1 & x & l2 & w' & Hitems & _ & Hrun & _ & Hlen & _).
  - reflexivity.
  - simpl. apply list_elem_of_here.
  - reflexivity.
  - exists (set_cartItems (l1 ++ l2) doc), w'. split; [exact Hrun|].
    simpl in Hlen |- *. split; [lia|].
    pose proof Hrun as Hresult. vm_compute in Hresult.
    injection Hresult as Hresult _. symmetry. exact Hresult.
Defined.

(** C9, on the code.  For every user without a cart, [deleteProductFromCart]
    rejects with [BAD_REQUEST] and the message of [updateProductInCart],
    "User does not have a cart. Use POST to create cart and add a product",
    which is neither the "User does not have a cart" of the function's own
    documentation nor the "user does not have a cart" of the
    specification; nothing is written. *)
Theorem deleteProductFromCart_no_cart_message user productId w :
  carts w !! user_email user = None →
  let e :=
    ApiError httpStatus.BAD_REQUEST
      "User does not have a cart. Use POST to create cart and add a product" in
  deleteProductFromCart user productId w
  = (Rejected e, log (EvCartFindOne (user_email user)) w)
  ∧ kind_of e = Some InvalidInput
  ∧ e ≠ ApiError httpStatus.BAD_REQUEST "User does not have a cart"
  ∧ e ≠ ApiError httpStatus.BAD_REQUEST "user does not have a cart".
Proof.
  intros Hcart e. unfold deleteProductFromCart. run. rewrite Hcart.
  repeat split; discriminate.
Qed.

Lemma deleteProductFromCart_no_cart_message_witness :
  let user := sample_user 300 "12 Main Street" in
  fst (deleteProductFromCart user (product_id sample_p1)
         (sample_world None user []))
  = Rejected
      (ApiError httpStatus.BAD_REQUEST
         "User does not have a cart. Use POST to create cart and add a product").
Proof.
  intros user.
  destruct (deleteProductFromCart_no_cart_message user (product_id sample_p1)
              (sample_world None user []) eq_refl) as [Hrun _].
  rewrite Hrun. reflexivity.
Defined.

(** ** Updating a quantity: what is left alone *)

(** C10.  For every cart holding a line item for [productId], with the
    product in the catalogue and the write persisting, the cart that
    [updateProductInCart] resolves to has the identifier and the e-mail of the
    cart it read, as many line items, the same product snapshots (costs
    included) in the same order; a line item for another product is the one
    that was there, a line item for [productId] differs from the one that was
    there in its quantity at most.  The stored users, the catalogue and the
    carts stored under other keys are left as they were. *)
Theorem updateProductInCart_frame user productId qty w userCart p :
  carts w !! user_email user = Some userCart →
  product_by_id productId (products w) = Some p →
  productId ∈ product_ids (cartItems userCart) →
  next_writes_persist 1 (script w) = true →
  ∃ result w',
    updateProductInCart user productId qty w = (Resolved result, w')
    ∧ cart_id result = cart_id userCart
    ∧ cart_email result = cart_email userCart
    ∧ length (cartItems result) = length (cartItems userCart)
    ∧ map product (cartItems result) = map product (cartItems userCart)
    ∧ (∀ (i : nat) old,
         cartItems userCart !! i = Some old →
         ∃ new,
           cartItems result !! i = Some new
           ∧ product new = product old
           ∧ (product_id (product old) ≠ productId → new = old)
           ∧ (product_id (product old) = productId → quantity new = qty))
    ∧ users w' = users w
    ∧ (∀ email, email ≠ cart_email userCart → carts w' !! email = carts w !! email).
Proof.
  intros Hcart Hp Hin Hw.
  destruct (updateProductInCart_run user productId qty w userCart p
              Hcart Hp Hin Hw) as (w' & Hrun & Hcarts & Husers).
  eexists. exists w'. split; [exact Hrun|]. simpl.
  split; [reflexivity|]. split; [reflexivity|].
  split; [apply length_map|]. split.
  - rewrite map_map. apply map_ext. intros ele. unfold overwrite.
    destruct (matches productId ele); reflexivity.
  - split; [|split; [exact Husers|]].
    + intros i old Hold.
      exists (overwrite productId qty old).
      change (map (overwrite productId qty) (cartItems userCart))
        with (overwrite productId qty <$> cartItems userCart).
      rewrite list_lookup_fmap, Hold. simpl. split; [reflexivity|].
      unfold overwrite. destruct (matches productId old) eqn:E; simpl.
      * apply matches_spec in E. split; [reflexivity|].
        split; [intros Hne; contradiction|intros _; reflexivity].
      * split; [reflexivity|]. split; [reflexivity|].
        intros Hid. apply matches_spec in Hid. congruence.
    + intros email Hne. rewrite Hcarts. apply lookup_insert_ne. congruence.
Qed.

Lemma updateProductInCart_frame_witness :
  let user := sample_user 300 "12 Main Street" in
  let w := sample_world (Some (sample_cart sample_items)) user [] in
  ∃ result w',
    updateProductInCart user (product_id sample_p1) 7 w = (Resolved result, w')
    ∧ map product (cartItems result) = [sample_p1; sample_p2]
    ∧ cartItems result !! 1%nat = Some {| product := sample_p2; quantity := 1 |}.
Proof.
  intros user w.
  destruct (updateProductInCart_frame user (product_id sample_p1) 7 w
              (sample_cart sample_items) sample_p1)
    as (result & w' & Hrun & _ & _ & _ & Hproducts & Hitems & _).
  - reflexivity.
  - reflexivity.
  - simpl. apply list_elem_of_here.
  - reflexivity.
  - exists result, w'. split; [exact Hrun|]. split; [exact Hproducts|].
    destruct (Hitems 1%nat {| product := sample_p2; quantity := 1 |} eq_refl)
      as (new & Hnew & _ & Hsame & _).
    rewrite Hnew. f_equal. apply Hsame. discriminate.
Defined.

(** ** The carts stay keyed by e-mail *)

Lemma write_carts_keyed ev key doc w :
  cart_email doc = key →
  carts_keyed w →
  carts_keyed (snd (write ev (set_carts (insert key doc)) w)).
Proof.
  unfold carts_keyed, write. intros Hkey Hw.
  destruct (head (script w)) as [[]|]; simpl; try assumption;
    apply map_Forall_insert_2; trivial.
Qed.

Lemma write_users_carts_keyed ev f w :
  carts_keyed w → carts_keyed (snd (write ev (set_users f) w)).
Proof.
  unfold carts_keyed, write. intros Hw.
  destruct (head (script w)) as [[]|]; simpl; assumption.
Qed.

Ltac keyed_after_write :=
  match goal with
  | |- context [write ?ev ?f ?w0] =>
      let H := fresh "Hafter" in
      let r := fresh "r" in
      let w1 := fresh "w" in
      assert (carts_keyed w0 → carts_keyed (snd (write ev f w0))) as H;
      [ intros ?;
        first [ apply write_carts_keyed; [reflexivity|]
              | apply write_users_carts_keyed ];
        assumption
      | destruct (write ev f w0) as [[r|r] w1]; simpl in H |- * ]
  end.

Lemma addProductToCart_keyed user productId quantity w :
  carts_keyed w →
  carts_keyed (snd (addProductToCart user productId quantity w)).
Proof.
  intros Hinv. unfold addProductToCart. run.
  destruct (castObjectId productId) as [oid|]; run; [|assumption].
  destruct (product_by_id productId (products w)) as [p|]; [|assumption].
  destruct (carts w !! user_email user) as [CartDoc|]; run.
  - destruct (existsb (matches productId) (cartItems CartDoc)); [assumption|].
    run. keyed_after_write; auto.
  - keyed_after_write; [|auto]. keyed_after_write; auto.
Qed.

Lemma updateProductInCart_keyed user productId quantity w :
  carts_keyed w →
  carts_keyed (snd (updateProductInCart user productId quantity w)).
Proof.
  intros Hinv. unfold updateProductInCart. run.
  destruct (carts w !! user_email user) as [userCart|]; run; [|assumption].
  destruct (castObjectId productId) as [oid|]; run; [|assumption].
  destruct (product_by_id productId (products w)) as [p|]; [|assumption].
  destruct (find (matches productId) (cartItems userCart)); [|assumption].
  keyed_after_write; auto.
Qed.

Lemma deleteProductFromCart_keyed user productId w :
  carts_keyed w →
  carts_keyed (snd (deleteProductFromCart user productId w)).
Proof.
  intros Hinv. unfold deleteProductFromCart. run.
  destruct (carts w !! user_email user) as [userCart|]; run; [|assumption].
  destruct (find (matches productId) (cartItems userCart)); [|assumption].
  keyed_after_write; auto.
Qed.

Lemma checkout_keyed config user w :
  carts_keyed w →
  carts_keyed (snd (snd (checkout config (user, w)))).
Proof.
  intros Hinv. unfold checkout, getCartByUser. run.
  destruct (carts w !! user_email user) as [userCart|]; run; [|assumption].
  destruct (cartItems userCart) as [|ele rest]; run; [assumption|].
  destruct (negb (address user =? default_address config)%string); run;
    [|assumption].
  destruct (walletMoney user <? cart_total (ele :: rest)); run; [assumption|].
  keyed_after_write; [|auto]. keyed_after_write; auto.
Qed.

(** * Further properties of the service *)

(** Every path of an operation: the reads, the guards and the outcome of
    each write. *)
Ltac paths :=
  run; unfold write, set_carts, set_users, set_script; simpl;
  repeat match goal with
         | |- context [match ?x with _ => _ end] =>
             lazymatch x with
             | context [match _ with _ => _ end] => fail
             | _ => destruct x eqn:?; simpl
             end
         end.

(** ** What the operations leave alone *)

(** X1.  On every outcome, [addProductToCart], [updateProductInCart] and
    [deleteProductFromCart] leave the user collection and the catalogue as
    they were, and [checkout] leaves the catalogue as it was. *)
Theorem cart_operations_leave_users_and_catalogue
    config user productId quantity w :
  (users (snd (addProductToCart user productId quantity w)) = users w
   ∧ products (snd (addProductToCart user productId quantity w)) = products w)
  ∧ (users (snd (updateProductInCart user productId quantity w)) = users w
     ∧ products (snd (updateProductInCart user productId quantity w))
       = products w)
  ∧ (users (snd (deleteProductFromCart user productId w)) = users w
     ∧ products (snd (deleteProductFromCart user productId w)) = products w)
  ∧ products (snd (snd (checkout config (user, w)))) = products w.
Proof.
  repeat apply conj.
  - unfold addProductToCart. paths; reflexivity.
  - unfold addProductToCart. paths; reflexivity.
  - unfold updateProductInCart. paths; reflexivity.
  - unfold updateProductInCart. paths; reflexivity.
  - unfold deleteProductFromCart. paths; reflexivity.
  - unfold deleteProductFromCart. paths; reflexivity.
  - unfold checkout, getCartByUser. paths; reflexivity.
Qed.

(** X2.  An operation that rejects with an [ApiError] has written nothing:
    the stored carts, the stored users and the write script are as they
    were, and after a [checkout] so rejected the user document is as it
    was. *)
Theorem service_rejections_write_nothing
    config user productId quantity w statusCode message :
  (fst (addProductToCart user productId quantity w)
   = Rejected (ApiError statusCode message) →
   carts (snd (addProductToCart user productId quantity w)) = carts w
   ∧ users (snd (addProductToCart user productId quantity w)) = users w
   ∧ script (snd (addProductToCart user productId quantity w)) = script w)
  ∧ (fst (updateProductInCart user productId quantity w)
     = Rejected (ApiError statusCode message) →
     carts (snd (updateProductInCart user productId quantity w)) = carts w
     ∧ users (snd (updateProductInCart user productId quantity w)) = users w
     ∧ script (snd (updateProductInCart user productId quantity w)) = script w)
  ∧ (fst (deleteProductFromCart user productId w)
     = Rejected (ApiError statusCode message) →
     carts (snd (deleteProductFromCart user productId w)) = carts w
     ∧ users (snd (deleteProductFromCart user productId w)) = users w
     ∧ script (snd (deleteProductFromCart user productId w)) = script w)
  ∧ (fst (checkout config (user, w)) = Rejected (ApiError statusCode message) →
     fst (snd (checkout config (user, w))) = user
     ∧ carts (snd (snd (checkout config (user, w)))) = carts w
     ∧ users (snd (snd (checkout config (user, w)))) = users w
     ∧ script (snd (snd (checkout config (user, w)))) = script w).
Proof.
  repeat apply conj.
  - unfold addProductToCart. paths; intros; try discriminate; auto.
  - unfold updateProductInCart. paths; intros; try discriminate; auto.
  - unfold deleteProductFromCart. paths; intros; try discriminate; auto.
  - unfold checkout, getCartByUser. paths; intros; try discriminate; auto.
Qed.

Lemma service_rejections_write_nothing_witness :
  let user := sample_user 200 "12 Main Street" in
  let w := sample_world (Some (sample_cart sample_items)) user [false; false] in
  fst (checkout sample_config (user, w))
  = Rejected (ApiError httpStatus.BAD_REQUEST "Wallet balance is insufficient")
  ∧ carts (snd (snd (checkout sample_config (user, w)))) = carts w
  ∧ script (snd (snd (checkout sample_config (user, w)))) = [false; false].
Proof.
  intros user w.
  destruct (service_rejections_write_nothing sample_config user "" 0 w
              httpStatus.BAD_REQUEST "Wallet balance is insufficient")
    as (_ & _ & _ & H).
  destruct (H eq_refl) as (_ & Hcarts & _ & Hscript).
  split; [reflexivity|]. split; assumption.
Defined.

(** X3.  When carts are stored under their own e-mail, an operation on
    behalf of one user leaves, on every outcome, the cart stored under any
    other e-mail as it was. *)
Theorem cart_operations_leave_other_carts
    config user productId quantity w email :
  carts_keyed w →
  email ≠ user_email user →
  carts (snd (addProductToCart user productId quantity w)) !! email
  = carts w !! email
  ∧ carts (snd (updateProductInCart user productId quantity w)) !! email
    = carts w !! email
  ∧ carts (snd (deleteProductFromCart user productId w)) !! email
    = carts w !! email
  ∧ carts (snd (snd (checkout config (user, w)))) !! email = carts w !! email.
Proof.
  intros Hkeyed Hne.
  assert (∀ doc, carts w !! user_email user = Some doc →
                 cart_email doc ≠ email) as Hkey.
  { intros doc Hdoc. rewrite (Hkeyed _ _ Hdoc). congruence. }
  repeat apply conj.
  - unfold addProductToCart. paths; try reflexivity;
      rewrite ?lookup_insert_ne
        by (first [apply Hkey; first [assumption|reflexivity] | congruence]);
      reflexivity.
  - unfold updateProductInCart. paths; try reflexivity;
      rewrite ?lookup_insert_ne
        by (apply Hkey; first [assumption|reflexivity]);
      reflexivity.
  - unfold deleteProductFromCart. paths; try reflexivity;
      rewrite ?lookup_insert_ne
        by (apply Hkey; first [assumption|reflexivity]);
      reflexivity.
  - unfold checkout, getCartByUser. paths; try reflexivity;
      rewrite ?lookup_insert_ne
        by (apply Hkey; first [assumption|reflexivity]);
      reflexivity.
Qed.

Lemma sample_world_two_keyed doc user outcomes :
  carts_keyed (sample_world_two doc user outcomes).
Proof.
  unfold carts_keyed, sample_world_two. simpl.
  apply map_Forall_insert_2; [reflexivity|].
  apply map_Forall_singleton. reflexivity.
Qed.

Lemma cart_operations_leave_other_carts_witness :
  let user := sample_user 300 "12 Main Street" in
  let w := sample_world_two (sample_cart sample_items) user [] in
  carts (snd (snd (checkout sample_config (user, w)))) !! "other-user@gmail.com"
  = Some sample_other_cart
  ∧ carts (snd (deleteProductFromCart user (product_id sample_p2) w))
      !! "other-user@gmail.com"
    = Some sample_other_cart.
Proof.
  intros user w.
  destruct (cart_operations_leave_other_carts sample_config user
              (product_id sample_p2) 1 w "other-user@gmail.com"
              (sample_world_two_keyed _ _ _) ltac:(discriminate))
    as (_ & _ & Hdelete & Hcheckout).
  rewrite Hdelete, Hcheckout. split; reflexivity.
Defined.

(** X4.  Carts are created by [addProductToCart] alone, and never removed.
    When carts are stored under their own e-mail, an e-mail without a cart
    is still without one after [updateProductInCart],
    [deleteProductFromCart] and [checkout], on every outcome; and an e-mail
    with a cart still has one after each of the four operations. *)
Theorem carts_are_created_by_add_alone config user productId quantity w email :
  (carts_keyed w →
   carts w !! email = None →
   carts (snd (updateProductInCart user productId quantity w)) !! email = None
   ∧ carts (snd (deleteProductFromCart user productId w)) !! email = None
   ∧ carts (snd (snd (checkout config (user, w)))) !! email = None)
  ∧ (is_Some (carts w !! email) →
     is_Some (carts (snd (addProductToCart user productId quantity w)) !! email)
     ∧ is_Some (carts (snd (updateProductInCart user productId quantity w))
                  !! email)
     ∧ is_Some (carts (snd (deleteProductFromCart user productId w)) !! email)
     ∧ is_Some (carts (snd (snd (checkout config (user, w)))) !! email)).
Proof.
  split.
  - intros Hkeyed Hnone.
    assert (∀ doc, carts w !! user_email user = Some doc →
                   cart_email doc ≠ email) as Hkey.
    { intros doc Hdoc. rewrite (Hkeyed _ _ Hdoc). congruence. }
    repeat apply conj.
    + unfold updateProductInCart. paths; try assumption;
        rewrite ?lookup_insert_ne
          by (apply Hkey; first [assumption|reflexivity]);
        assumption.
    + unfold deleteProductFromCart. paths; try assumption;
        rewrite ?lookup_insert_ne
          by (apply Hkey; first [assumption|reflexivity]);
        assumption.
    + unfold checkout, getCartByUser. paths; try assumption;
        rewrite ?lookup_insert_ne
          by (apply Hkey; first [assumption|reflexivity]);
        assumption.
  - intros Hsome.
    assert (∀ (key : string) (doc : Cart) (m : gmap string Cart),
              is_Some (m !! email) →
              is_Some (<[key := doc]> m !! email)) as Hins.
    { intros key doc m Hm. rewrite lookup_insert. case_decide; eauto. }
    repeat apply conj.
    + unfold addProductToCart. paths; auto.
    + unfold updateProductInCart. paths; auto.
    + unfold deleteProductFromCart. paths; auto.
    + unfold checkout, getCartByUser. paths; auto.
Qed.

Lemma carts_are_created_by_add_alone_witness :
  let user := sample_user 300 "12 Main Street" in
  let w := sample_world_two (sample_cart sample_items) user [] in
  carts (snd (snd (checkout sample_config (user, w)))) !! "nobody@gmail.com" = None
  ∧ is_Some (carts (snd (snd (checkout sample_config (user, w))))
               !! user_email user).
Proof.
  intros user w.
  destruct (carts_are_created_by_add_alone sample_config user
              (product_id sample_p1) 1 w "nobody@gmail.com") as [Hnone _].
  destruct (carts_are_created_by_add_alone sample_config user
              (product_id sample_p1) 1 w (user_email user)) as [_ Hsome].
  split.
  - apply Hnone; [apply sample_world_two_keyed | reflexivity].
  - apply Hsome. eexists. reflexivity.
Defined.

(** X5.  Carts stay stored under their own e-mail: when every stored cart
    is stored under the e-mail it carries, so is every stored cart after
    each of the four operations, on every outcome. *)
Theorem cart_operations_keep_carts_keyed config user productId quantity w :
  carts_keyed w →
  carts_keyed (snd (addProductToCart user productId quantity w))
  ∧ carts_keyed (snd (updateProductInCart user productId quantity w))
  ∧ carts_keyed (snd (deleteProductFromCart user productId w))
  ∧ carts_keyed (snd (snd (checkout config (user, w)))).
Proof.
  intros Hkeyed. repeat apply conj.
  - apply addProductToCart_keyed, Hkeyed.
  - apply updateProductInCart_keyed, Hkeyed.
  - apply deleteProductFromCart_keyed, Hkeyed.
  - apply checkout_keyed, Hkeyed.
Qed.

Lemma cart_operations_keep_carts_keyed_witness :
  let user := sample_user 300 "12 Main Street" in
  let w := sample_world_two (sample_cart sample_items) user [] in
  carts_keyed (snd (addProductToCart user (product_id sample_p1) 1 w))
  ∧ carts_keyed (snd (snd (checkout sample_config (user, w)))).
Proof.
  intros user w.
  destruct (cart_operations_keep_carts_keyed sample_config user
              (product_id sample_p1) 1 w (sample_world_two_keyed _ _ _))
    as (Hadd & _ & _ & Hcheckout).
  split; assumption.
Defined.

(** ** Adding a product: the other paths *)

(** X6.  A product that is not in the catalogue can be neither added nor
    updated: for an identifier that casts to an ObjectId which no product
    of the catalogue carries, [addProductToCart] rejects with [BAD_REQUEST]
    "Product doesn't exist in database" whether or not the user has a cart
    and whether or not that cart holds a line item with that identifier,
    and so does [updateProductInCart] for a user who has a cart; no cart is
    created and nothing is written. *)
Theorem unknown_product_is_rejected user productId quantity w oid :
  castObjectId productId = Some oid →
  product_by_id productId (products w) = None →
  let e := ApiError httpStatus.BAD_REQUEST "Product doesn't exist in database" in
  (fst (addProductToCart user productId quantity w) = Rejected e
   ∧ carts (snd (addProductToCart user productId quantity w)) = carts w
   ∧ script (snd (addProductToCart user productId quantity w)) = script w)
  ∧ (is_Some (carts w !! user_email user) →
     fst (updateProductInCart user productId quantity w) = Rejected e
     ∧ carts (snd (updateProductInCart user productId quantity w)) = carts w
     ∧ script (snd (updateProductInCart user productId quantity w)) = script w).
Proof.
  intros Hcast Hp e. split.
  - unfold addProductToCart. run. rewrite Hcast. run. rewrite Hp. auto.
  - intros [doc Hdoc]. unfold updateProductInCart. run. rewrite Hdoc. run.
    rewrite Hcast. run. rewrite Hp. auto.
Qed.

Lemma unknown_product_is_rejected_witness :
  let user := sample_user 300 "12 Main Street" in
  let w :=
    set_products [sample_p2] (sample_world (Some (sample_cart sample_items)) user []) in
  fst (addProductToCart user sample_p1_upper 1 w)
  = Rejected (ApiError httpStatus.BAD_REQUEST "Product doesn't exist in database")
  ∧ fst (updateProductInCart user (product_id sample_p1) 1 w)
    = Rejected (ApiError httpStatus.BAD_REQUEST "Product doesn't exist in database").
Proof.
  intros user w.
  destruct (unknown_product_is_rejected user sample_p1_upper 1 w
              (product_id sample_p1) eq_refl eq_refl) as [(Hadd & _) _].
  destruct (unknown_product_is_rejected user (product_id sample_p1) 1 w
              (product_id sample_p1) eq_refl eq_refl) as [_ Hupdate].
  split; [exact Hadd|]. apply Hupdate. eexists. reflexivity.
Defined.

(** X7.  The first product of a user without a cart: with the product in
    the catalogue and both writes persisting, [addProductToCart] resolves to
    a cart that carries the e-mail and the identifier of the user and the
    single line item of the catalogue's product with the given quantity
    (the product whose identifier is the ObjectId that the given text casts
    to, which need not be that text),
    and stores it under the e-mail of the user, where [getCartByUser] then
    finds it. *)
Theorem addProductToCart_creates_the_cart user productId quantity w p :
  carts w !! user_email user = None →
  product_by_id productId (products w) = Some p →
  next_writes_persist 2 (script w) = true →
  ∃ created w',
    addProductToCart user productId quantity w = (Resolved created, w')
    ∧ cart_email created = user_email user
    ∧ cart_id created = user_id user
    ∧ cartItems created = [ {| product := p; quantity := quantity |} ]
    ∧ castObjectId productId = Some (product_id p)
    ∧ carts w' = <[user_email user := created]> (carts w)
    ∧ fst (getCartByUser user w') = Resolved created.
Proof.
  intros Hcart Hp Hw.
  destruct (addProductToCart_run_create user productId quantity w p Hcart Hp Hw)
    as (w' & Hrun & Hcarts & _).
  do 2 eexists. split; [exact Hrun|]. simpl.
  repeat split; try reflexivity.
  - eapply product_by_id_cast, Hp.
  - exact Hcarts.
  - unfold getCartByUser. run. rewrite Hcarts, lookup_insert_eq. reflexivity.
Qed.

Lemma addProductToCart_creates_the_cart_witness :
  let user := sample_user 300 "12 Main Street" in
  ∃ created w',
    addProductToCart user (product_id sample_p2) 3 (sample_world None user [])
    = (Resolved created, w')
    ∧ cartItems created = [ {| product := sample_p2; quantity := 3 |} ]
    ∧ fst (getCartByUser user w') = Resolved created.
Proof.
  intros user.
  destruct (addProductToCart_creates_the_cart user (product_id sample_p2) 3
              (sample_world None user []) sample_p2 eq_refl eq_refl eq_refl)
    as (created & w' & Hrun & _ & _ & Hitems & _ & _ & Hget).
  exists created, w'. auto.
Defined.

(** X8.  The two writes of the first add are not one.  For a user without a
    cart and a product of the catalogue: when [Cart.create] is rejected,
    [addProductToCart] rejects with the error of the store and no cart is
    stored; when [Cart.create] persists and the [save] that follows is
    rejected, [addProductToCart] rejects with the error of the store and the
    new cart is stored all the same. *)
Theorem addProductToCart_create_write_outcomes user productId quantity w p :
  carts w !! user_email user = None →
  product_by_id productId (products w) = Some p →
  let created :=
    {| cart_id := user_id user; cart_email := user_email user;
       cartItems := [ {| product := p; quantity := quantity |} ] |} in
  let out := addProductToCart user productId quantity w in
  match script w with
  | false :: _ => fst out = Rejected StoreError ∧ carts (snd out) = carts w
  | true :: false :: _ =>
      fst out = Rejected StoreError
      ∧ carts (snd out) = <[user_email user := created]> (carts w)
  | _ =>
      fst out = Resolved created
      ∧ carts (snd out) = <[user_email user := created]> (carts w)
  end.
Proof.
  intros Hcart Hp created out. subst out created.
  unfold addProductToCart. run. found Hp. rewrite Hcart. run.
  unfold write, set_carts, set_script. simpl.
  destruct (script w) as [|[] [|[] ?]]; simpl;
    rewrite ?insert_insert_eq; auto.
Qed.

Lemma addProductToCart_create_write_outcomes_witness :
  let user := sample_user 300 "12 Main Street" in
  let out :=
    addProductToCart user (product_id sample_p2) 3
      (sample_world None user [true; false]) in
  fst out = Rejected StoreError
  ∧ carts (snd out) !! user_email user
    = Some (sample_cart [ {| product := sample_p2; quantity := 3 |} ]).
Proof.
  intros user out.
  destruct (addProductToCart_create_write_outcomes user (product_id sample_p2) 3
              (sample_world None user [true; false]) sample_p2 eq_refl eq_refl)
    as [Hrun Hcarts].
  split; [exact Hrun|]. subst out. rewrite Hcarts. apply lookup_insert_eq.
Defined.

(** X9.  Reading back what was written: when carts are stored under their
    own e-mail and [addProductToCart], [updateProductInCart] or
    [deleteProductFromCart] resolves to a cart, [getCartByUser] on the
    database it leaves resolves to that cart. *)
Theorem getCartByUser_reads_back user productId quantity w doc :
  carts_keyed w →
  (fst (addProductToCart user productId quantity w) = Resolved doc →
   fst (getCartByUser user (snd (addProductToCart user productId quantity w)))
   = Resolved doc)
  ∧ (fst (updateProductInCart user productId quantity w) = Resolved doc →
     fst (getCartByUser user
            (snd (updateProductInCart user productId quantity w)))
     = Resolved doc)
  ∧ (fst (deleteProductFromCart user productId w) = Resolved doc →
     fst (getCartByUser user (snd (deleteProductFromCart user productId w)))
     = Resolved doc).
Proof.
  intros Hkeyed.
  assert (∀ found, carts w !! user_email user = Some found →
                   cart_email found = user_email user) as Hkey.
  { intros found Hfound. exact (Hkeyed _ _ Hfound). }
  repeat apply conj.
  - unfold addProductToCart, getCartByUser. paths; intros [= <-];
      rewrite ?Hkey in * by (first [assumption|reflexivity]);
      rewrite ?lookup_insert_eq in *; congruence.
  - unfold updateProductInCart, getCartByUser. paths; intros [= <-];
      rewrite ?Hkey in * by (first [assumption|reflexivity]);
      rewrite ?lookup_insert_eq in *; congruence.
  - unfold deleteProductFromCart, getCartByUser. paths; intros [= <-];
      rewrite ?Hkey in * by (first [assumption|reflexivity]);
      rewrite ?lookup_insert_eq in *; congruence.
Qed.

Lemma getCartByUser_reads_back_witness :
  let user := sample_user 300 "12 Main Street" in
  let w := sample_world_two (sample_cart sample_items) user [] in
  let deleted := deleteProductFromCart user (product_id sample_p1) w in
  fst (getCartByUser user (snd deleted))
  = Resolved (sample_cart [ {| product := sample_p2; quantity := 1 |} ]).
Proof.
  intros user w deleted.
  destruct (getCartByUser_reads_back user (product_id sample_p1) 0 w
              (sample_cart [ {| product := sample_p2; quantity := 1 |} ])
              (sample_world_two_keyed _ _ _)) as (_ & _ & Hdelete).
  apply Hdelete. vm_compute. reflexivity.
Defined.

(** ** Updating and deleting: the rejections *)

(** X10.  The guards of [updateProductInCart] and [deleteProductFromCart],
    in order.  Without a cart, an update rejects with [BAD_REQUEST] "User
    does not have a cart. Use POST to create cart and add a product" before
    the catalogue is read.  With a cart that holds no line item for the
    product, an update of a product of the catalogue and a delete of any
    product reject with [BAD_REQUEST] "Product not in cart"; the delete does
    so without reading the catalogue.  In each case only the trace has
    grown. *)
Theorem update_and_delete_rejections user productId quantity w :
  (carts w !! user_email user = None →
   updateProductInCart user productId quantity w
   = (Rejected
        (ApiError httpStatus.BAD_REQUEST
           "User does not have a cart. Use POST to create cart and add a product"),
      log (EvCartFindOne (user_email user)) w))
  ∧ (∀ doc,
       carts w !! user_email user = Some doc →
       productId ∉ product_ids (cartItems doc) →
       (is_Some (product_by_id productId (products w)) →
        updateProductInCart user productId quantity w
        = (Rejected (ApiError httpStatus.BAD_REQUEST "Product not in cart"),
           log (EvProductFindById productId)
             (log (EvCartFindOne (user_email user)) w)))
       ∧ deleteProductFromCart user productId w
         = (Rejected (ApiError httpStatus.BAD_REQUEST "Product not in cart"),
            log (EvCartFindOne (user_email user)) w)).
Proof.
  split.
  - intros Hcart. unfold updateProductInCart. run. rewrite Hcart. reflexivity.
  - intros doc Hcart Hnin.
    apply existsb_matches_false, find_matches_existsb in Hnin. split.
    + intros [p Hp]. unfold updateProductInCart. run. rewrite Hcart. run.
      found Hp. rewrite Hnin. reflexivity.
    + unfold deleteProductFromCart. run. rewrite Hcart, Hnin. reflexivity.
Qed.

Lemma update_and_delete_rejections_witness :
  let user := sample_user 300 "12 Main Street" in
  let w :=
    sample_world
      (Some (sample_cart [ {| product := sample_p1; quantity := 2 |} ])) user [] in
  fst (updateProductInCart user (product_id sample_p2) 1 w)
  = Rejected (ApiError httpStatus.BAD_REQUEST "Product not in cart")
  ∧ fst (deleteProductFromCart user (product_id sample_p2) w)
    = Rejected (ApiError httpStatus.BAD_REQUEST "Product not in cart")
  ∧ fst (updateProductInCart user (product_id sample_p2) 1
           (sample_world None user []))
    = Rejected
        (ApiError httpStatus.BAD_REQUEST
           "User does not have a cart. Use POST to create cart and add a product").
Proof.
  intros user w.
  destruct (update_and_delete_rejections user (product_id sample_p2) 1 w)
    as [_ Hcart].
  destruct (Hcart (sample_cart [ {| product := sample_p1; quantity := 2 |} ])
              eq_refl) as [Hupdate Hdelete].
  { simpl. intros Hin. apply list_elem_of_singleton in Hin. discriminate. }
  destruct (update_and_delete_rejections user (product_id sample_p2) 1
              (sample_world None user [])) as [Hnone _].
  rewrite Hupdate by (eexists; reflexivity).
  rewrite Hdelete, (Hnone eq_refl). repeat split.
Defined.

(** ** Updating: how updates compose, and what they do to the total *)

Lemma overwrite_overwrite productId first second items :
  map (overwrite productId second) (map (overwrite productId first) items)
  = map (overwrite productId second) items.
Proof.
  rewrite map_map. apply map_ext. intros ele. unfold overwrite.
  destruct (matches productId ele) eqn:E.
  - assert (matches productId (set_quantity first ele) = true) as ->
        by exact E.
    reflexivity.
  - rewrite E. reflexivity.
Qed.

Lemma spec_total_app l1 l2 :
  spec_total (l1 ++ l2) = spec_total l1 + spec_total l2.
Proof.
  unfold spec_total. induction l1 as [|ele rest IH]; simpl; [reflexivity|].
  rewrite IH. lia.
Qed.

Lemma updateProductInCart_run_exact user productId quantity w userCart p :
  carts w !! user_email user = Some userCart →
  product_by_id productId (products w) = Some p →
  productId ∈ product_ids (cartItems userCart) →
  next_writes_persist 1 (script w) = true →
  let result :=
    set_cartItems (map (overwrite productId quantity) (cartItems userCart))
      userCart in
  updateProductInCart user productId quantity w
  = (Resolved result,
     set_carts (insert (cart_email userCart) result)
       (set_script (tail (script w))
          (log (EvCartSave (cart_email userCart))
             (log (EvProductFindById productId)
                (log (EvCartFindOne (user_email user)) w))))).
Proof.
  intros Hcart Hp Hin Hw result.
  unfold updateProductInCart. run. rewrite Hcart. run. found Hp.
  destruct (find_matches_some _ _ Hin) as [x ->].
  rewrite write_persists by exact Hw. reflexivity.
Qed.

(** X11.  The last update wins.  For a cart stored under its own e-mail
    that holds a line item for the product, with the product in the
    catalogue and both writes persisting, updating to one quantity and then
    to a second resolves to the cart, and leaves the stored carts, that the
    second update alone would; updating twice to the same quantity is the
    same as updating once. *)
Theorem updateProductInCart_last_update_wins
    user productId first second w userCart p :
  carts w !! user_email user = Some userCart →
  cart_email userCart = user_email user →
  product_by_id productId (products w) = Some p →
  productId ∈ product_ids (cartItems userCart) →
  next_writes_persist 2 (script w) = true →
  ∃ result intermediate w1 w2 w2',
    updateProductInCart user productId first w = (Resolved intermediate, w1)
    ∧ updateProductInCart user productId second w1 = (Resolved result, w2)
    ∧ updateProductInCart user productId second w = (Resolved result, w2')
    ∧ carts w2 = carts w2'.
Proof.
  intros Hcart Hkey Hp Hin Hw.
  apply next_writes_persist_S in Hw as [Hw1 Hw2].
  pose proof (updateProductInCart_run_exact user productId first w userCart p
                Hcart Hp Hin Hw1) as Hfirst.
  pose proof (updateProductInCart_run_exact user productId second w userCart p
                Hcart Hp Hin Hw1) as Hsecond.
  simpl in Hfirst, Hsecond.
  match type of Hfirst with _ = (Resolved ?d, ?w1) =>
    pose proof (updateProductInCart_run_exact user productId second w1 d p)
      as Hthen
  end.
  simpl in Hthen.
  assert (<[cart_email userCart :=
              set_cartItems (map (overwrite productId first) (cartItems userCart))
                userCart]> (carts w) !! user_email user
          = Some (set_cartItems
                    (map (overwrite productId first) (cartItems userCart))
                    userCart)) as Hstored
      by (rewrite <- Hkey; apply lookup_insert_eq).
  specialize (Hthen Hstored Hp).
  rewrite product_ids_overwrite in Hthen. specialize (Hthen Hin Hw2).
  rewrite overwrite_overwrite in Hthen.
  do 5 eexists. split; [exact Hfirst|]. split; [exact Hthen|].
  split; [exact Hsecond|]. simpl. apply insert_insert_eq.
Qed.

Lemma updateProductInCart_last_update_wins_witness :
  let user := sample_user 300 "12 Main Street" in
  let w := sample_world (Some (sample_cart sample_items)) user [] in
  ∃ result intermediate w1 w2 w2',
    updateProductInCart user (product_id sample_p1) 9 w
    = (Resolved intermediate, w1)
    ∧ updateProductInCart user (product_id sample_p1) 4 w1
      = (Resolved result, w2)
    ∧ updateProductInCart user (product_id sample_p1) 4 w
      = (Resolved result, w2')
    ∧ carts w2 = carts w2'.
Proof.
  intros user w.
  apply (updateProductInCart_last_update_wins user (product_id sample_p1) 9 4 w
           (sample_cart sample_items) sample_p1); try reflexivity.
  simpl. apply list_elem_of_here.
Defined.

(** X13.  What an add does to the total.  Whenever [addProductToCart]
    resolves, the total of the cart it resolves to is the total of the cart
    the user had, or zero without one, plus the quantity times the cost of
    the product in the catalogue at that moment. *)
Theorem addProductToCart_total user productId qty w p doc :
  product_by_id productId (products w) = Some p →
  fst (addProductToCart user productId qty w) = Resolved doc →
  spec_total (cartItems doc)
  = match carts w !! user_email user with
    | Some CartDoc => spec_total (cartItems CartDoc)
    | None => 0
    end + qty * cost p.
Proof.
  intros Hp. unfold addProductToCart. run. rewrite Hp.
  destruct (carts w !! user_email user) as [CartDoc|]; paths;
    intros [= <-]; simpl;
    rewrite ?spec_total_app; unfold spec_total, line_total; simpl; lia.
Qed.

Lemma addProductToCart_total_witness :
  let user := sample_user 300 "12 Main Street" in
  let w :=
    sample_world
      (Some (sample_cart [ {| product := sample_p1; quantity := 2 |} ])) user [] in
  fst (addProductToCart user (product_id sample_p2) 1 w)
  = Resolved (sample_cart sample_items)
  ∧ spec_total sample_items = 200 + 1 * 50.
Proof.
  intros user w. split; [reflexivity|].
  exact (addProductToCart_total user (product_id sample_p2) 1 w sample_p2
           (sample_cart sample_items) eq_refl eq_refl).
Defined.

(** ** Deleting: undoing an add *)

(** X15.  A delete undoes an add.  For a cart stored under its own e-mail
    that holds no line item for the product, with the product in the
    catalogue under the very identifier text that is given and both writes
    persisting, adding the product and then deleting it resolves to the
    cart as it was before the add, and the stored carts are as they
    were. *)
Theorem add_then_delete_restores_the_cart user productId qty w CartDoc p :
  carts w !! user_email user = Some CartDoc →
  cart_email CartDoc = user_email user →
  product_by_id productId (products w) = Some p →
  product_id p = productId →
  productId ∉ product_ids (cartItems CartDoc) →
  next_writes_persist 2 (script w) = true →
  ∃ added w1 w2,
    addProductToCart user productId qty w = (Resolved added, w1)
    ∧ cartItems added
      = (cartItems CartDoc ++ [ {| product := p; quantity := qty |} ])%list
    ∧ deleteProductFromCart user productId w1 = (Resolved CartDoc, w2)
    ∧ carts w2 = carts w.
Proof.
  intros Hcart Hkey Hp Hid Hnin Hw.
  apply next_writes_persist_S in Hw as [Hw1 Hw2].
  assert (addProductToCart user productId qty w
          = (Resolved
               (set_cartItems
                  (cartItems CartDoc ++ [ {| product := p; quantity := qty |} ])
                  CartDoc),
             set_carts
               (insert (cart_email CartDoc)
                  (set_cartItems
                     (cartItems CartDoc
                        ++ [ {| product := p; quantity := qty |} ])
                     CartDoc))
               (set_script (tail (script w))
                  (log (EvCartSave (cart_email CartDoc))
                     (log (EvProductFindById productId)
                        (log (EvCartFindOne (user_email user)) w))))))
    as Hadd.
  { unfold addProductToCart. run. found Hp. rewrite Hcart.
    apply existsb_matches_false in Hnin. rewrite Hnin. run.
    rewrite write_persists by exact Hw1. reflexivity. }
  match type of Hadd with _ = (Resolved ?d, ?w1) =>
    destruct (deleteProductFromCart_run user productId w1 d (cartItems CartDoc)
                {| product := p; quantity := qty |} [])
      as (w2 & Hdelete & Hcarts & _)
  end.
  - simpl. rewrite <- Hkey. apply lookup_insert_eq.
  - reflexivity.
  - apply matches_spec. exact Hid.
  - reflexivity.
  - exact Hw2.
  - rewrite app_nil_r in Hdelete, Hcarts. simpl in Hdelete, Hcarts.
    unfold set_cartItems in Hdelete, Hcarts. simpl in Hdelete, Hcarts.
    do 3 eexists. split; [exact Hadd|]. split; [reflexivity|].
    assert ({| cart_id := cart_id CartDoc; cart_email := cart_email CartDoc;
               cartItems := cartItems CartDoc |} = CartDoc) as Hsame
        by (destruct CartDoc; reflexivity).
    rewrite Hsame in Hdelete, Hcarts.
    split; [exact Hdelete|]. rewrite Hcarts, insert_insert_eq.
    apply insert_id. rewrite Hkey. exact Hcart.
Qed.

Lemma add_then_delete_restores_the_cart_witness :
  let user := sample_user 300 "12 Main Street" in
  let doc := sample_cart [ {| product := sample_p1; quantity := 2 |} ] in
  let w := sample_world (Some doc) user [] in
  ∃ added w1 w2,
    addProductToCart user (product_id sample_p2) 1 w = (Resolved added, w1)
    ∧ cartItems added = sample_items
    ∧ deleteProductFromCart user (product_id sample_p2) w1 = (Resolved doc, w2)
    ∧ carts w2 = carts w.
Proof.
  intros user doc w.
  apply (add_then_delete_restores_the_cart user (product_id sample_p2) 1 w doc
           sample_p2); try reflexivity.
  simpl. intros Hin. apply list_elem_of_singleton in Hin. discriminate.
Defined.

(** ** The catalogue is read by add and update alone *)

(** X16.  [deleteProductFromCart] and [checkout] do not read the catalogue:
    with any other catalogue in place of the stored one they give the same
    outcome and leave the same database, catalogue apart.  A product that
    has left the catalogue can still be deleted from a cart and is still
    paid for, at the cost stored in the cart. *)
Theorem delete_and_checkout_ignore_the_catalogue
    config user productId w collection :
  deleteProductFromCart user productId (set_products collection w)
  = (fst (deleteProductFromCart user productId w),
     set_products collection (snd (deleteProductFromCart user productId w)))
  ∧ checkout config (user, set_products collection w)
    = (fst (checkout config (user, w)),
       (fst (snd (checkout config (user, w))),
        set_products collection (snd (snd (checkout config (user, w)))))).
Proof.
  split.
  - unfold deleteProductFromCart. paths; reflexivity.
  - unfold checkout, getCartByUser. paths; reflexivity.
Qed.

(** ** Checkout: when it resolves, and what it leaves *)

(** What must have held for [checkout] to resolve. *)
Lemma checkout_resolved_inv config user w user' :
  fst (checkout config (user, w)) = Resolved user' →
  ∃ userCart,
    carts w !! user_email user = Some userCart
    ∧ cartItems userCart ≠ []
    ∧ address user ≠ default_address config
    ∧ cart_total (cartItems userCart) ≤ walletMoney user
    ∧ next_writes_persist 2 (script w) = true
    ∧ user' = set_walletMoney
                (walletMoney user - cart_total (cartItems userCart)) user.
Proof.
  destruct (carts w !! user_email user) as [userCart|] eqn:Hcart;
    [|rewrite (checkout_run_no_cart config user w Hcart); discriminate].
  destruct (cartItems userCart) as [|ele rest] eqn:Hitems;
    [rewrite (checkout_run_empty config user w userCart Hcart Hitems);
     discriminate|].
  assert (cartItems userCart ≠ []) as Hne by (rewrite Hitems; discriminate).
  destruct (String.eqb_spec (address user) (default_address config))
    as [Haddr|Haddr];
    [rewrite (checkout_run_address config user w userCart Hcart Hne Haddr);
     discriminate|].
  destruct (Z.lt_ge_cases (walletMoney user) (cart_total (cartItems userCart)))
    as [Hlt|Hle];
    [rewrite (checkout_run_balance config user w userCart Hcart Hne Haddr Hlt);
     discriminate|].
  rewrite (checkout_run_settle config user w userCart Hcart Hne Haddr Hle).
  unfold write. simpl.
  destruct (script w) as [|[] [|[] ?]]; simpl; intros [= <-];
    exists userCart; repeat split; assumption.
Qed.

Lemma spec_total_nonneg items :
  Forall (fun ele => 0 ≤ quantity ele ∧ 0 ≤ cost (product ele)) items →
  0 ≤ spec_total items.
Proof.
  unfold spec_total. induction 1 as [|ele rest [Hq Hc] _ IH]; simpl; [lia|].
  unfold line_total at 1. nia.
Qed.

(** X18.  The balance after a checkout.  Whenever [checkout] resolves, the
    balance of the user it resolves to is not negative, provided nothing
    more than that the check on the balance passed; and when every line
    item of the cart has a quantity and a stored cost that are not
    negative, that balance is at most the balance before. *)
Theorem checkout_balance_bounds config user w user' :
  fst (checkout config (user, w)) = Resolved user' →
  0 ≤ walletMoney user'
  ∧ (∀ userCart,
       carts w !! user_email user = Some userCart →
       Forall (fun ele => 0 ≤ quantity ele ∧ 0 ≤ cost (product ele))
         (cartItems userCart) →
       walletMoney user' ≤ walletMoney user).
Proof.
  intros Hrun.
  destruct (checkout_resolved_inv config user w user' Hrun)
    as (userCart & Hcart & _ & _ & Hle & _ & ->).
  simpl. split; [lia|].
  intros doc Hdoc Hpos. rewrite Hcart in Hdoc. injection Hdoc as <-.
  apply spec_total_nonneg in Hpos. rewrite <- cart_total_spec in Hpos. lia.
Qed.

Lemma checkout_balance_bounds_witness :
  let user := sample_user 300 "12 Main Street" in
  let w := sample_world (Some (sample_cart sample_items)) user [] in
  fst (checkout sample_config (user, w))
  = Resolved (sample_user 50 "12 Main Street")
  ∧ 0 ≤ 50 ≤ 300.
Proof.
  intros user w. split; [reflexivity|].
  destruct (checkout_balance_bounds sample_config user w
              (sample_user 50 "12 Main Street") eq_refl) as [Hlow Hhigh].
  split; [exact Hlow|].
  apply (Hhigh (sample_cart sample_items) eq_refl).
  repeat constructor; discriminate.
Defined.

(** X19.  A second checkout finds the cart empty.  After a checkout that
    resolved, on a database whose carts are stored under their own e-mail,
    checking out again with the user it resolved to rejects with
    [BAD_REQUEST] "User's cart doesn't have any product", whatever the
    balance and the write script; the user is not debited a second time. *)
Theorem checkout_twice config user w user' session' :
  carts_keyed w →
  checkout config (user, w) = (Resolved user', session') →
  fst (checkout config session')
  = Rejected
      (ApiError httpStatus.BAD_REQUEST "User's cart doesn't have any product")
  ∧ fst (snd (checkout config session')) = user'
  ∧ users (snd (snd (checkout config session'))) = users (snd session')
  ∧ carts (snd (snd (checkout config session'))) = carts (snd session').
Proof.
  intros Hkeyed Hrun.
  assert (fst (checkout config (user, w)) = Resolved user') as Hfst
      by (rewrite Hrun; reflexivity).
  destruct (checkout_resolved_inv config user w user' Hfst)
    as (userCart & Hcart & Hne & Haddr & Hle & Hw & Huser').
  pose proof (Hkeyed _ _ Hcart) as Hkey. simpl in Hkey.
  rewrite (checkout_run_settle config user w userCart Hcart Hne Haddr Hle)
    in Hrun.
  apply next_writes_persist_S in Hw as [Hw1 Hw2].
  rewrite write_persists in Hrun by exact Hw1.
  rewrite write_persists in Hrun by exact Hw2.
  subst user'. injection Hrun as <-.
  rewrite (checkout_run_empty config _ _ (set_cartItems [] userCart)).
  - simpl. repeat split.
  - simpl. rewrite Hkey. apply lookup_insert_eq.
  - reflexivity.
Qed.

Lemma checkout_twice_witness :
  let user := sample_user 300 "12 Main Street" in
  let w := sample_world (Some (sample_cart sample_items)) user [] in
  fst (checkout sample_config (snd (checkout sample_config (user, w))))
  = Rejected
      (ApiError httpStatus.BAD_REQUEST "User's cart doesn't have any product")
  ∧ walletMoney
      (fst (snd (checkout sample_config (snd (checkout sample_config (user, w))))))
    = 50.
Proof.
  intros user w.
  destruct (checkout_twice sample_config user w
              (sample_user 50 "12 Main Street")
              (snd (checkout sample_config (user, w)))
              (sample_world_keyed _ _ _))
    as (Hrun & Huser & _).
  - vm_compute. reflexivity.
  - split; [exact Hrun|]. rewrite Huser. reflexivity.
Defined.



(** ** user.model.js: the validator of the password field *)

Lemma digit_is_no_letter c : is_digit c = true → is_letter c = false.
Proof.
  unfold is_digit, is_letter. generalize (nat_of_ascii c). intros n.
  destruct (Nat.leb_spec 48 n), (Nat.leb_spec n 57), (Nat.leb_spec 97 n),
    (Nat.leb_spec n 122), (Nat.leb_spec 65 n), (Nat.leb_spec n 90);
    simpl; intros; try reflexivity; try discriminate; lia.
Qed.

Lemma some_char_append class s1 s2 :
  some_char class (s1 ++ s2)%string
  = some_char class s1 || some_char class s2.
Proof.
  induction s1 as [|c rest IH]; simpl; [reflexivity|].
  rewrite IH. apply orb_assoc.
Qed.

Lemma every_char_no_other class other value :
  (∀ c, class c = true → other c = false) →
  every_char class value = true →
  some_char other value = false.
Proof.
  intros Hdisjoint. induction value as [|c rest IH]; simpl; [reflexivity|].
  intros [Hc Hrest]%andb_true_iff.
  rewrite (Hdisjoint c Hc), (IH Hrest). reflexivity.
Qed.

Lemma password_validate_valid value :
  password_validate value = Valid
  ↔ some_char is_digit value = true ∧ some_char is_letter value = true.
Proof.
  unfold password_validate.
  destruct (some_char is_digit value), (some_char is_letter value); simpl;
    split; try discriminate; try tauto; intros [? ?]; discriminate.
Qed.

(** X21.  No password of a single character class passes the validator: a
    string of digits only, of letters only, or the empty string is rejected
    with "Password must contain at least one letter and one number",
    whatever its length. *)
Theorem password_validate_rejects_one_class value :
  every_char is_digit value = true ∨ every_char is_letter value = true →
  password_validate value
  = Invalid "Password must contain at least one letter and one number".
Proof.
  unfold password_validate. intros [Hdigits|Hletters].
  - rewrite (every_char_no_other is_digit is_letter value digit_is_no_letter
               Hdigits).
    rewrite orb_true_r. reflexivity.
  - assert (∀ c, is_letter c = true → is_digit c = false) as Hdisjoint.
    { intros c Hc. destruct (is_digit c) eqn:E; [|reflexivity].
      apply digit_is_no_letter in E. congruence. }
    rewrite (every_char_no_other is_letter is_digit value Hdisjoint Hletters).
    reflexivity.
Qed.

Lemma password_validate_rejects_one_class_witness :
  password_validate "1234567890123456"
  = Invalid "Password must contain at least one letter and one number"
  ∧ password_validate "correcthorsebattery"
    = Invalid "Password must contain at least one letter and one number"
  ∧ password_validate ""
    = Invalid "Password must contain at least one letter and one number".
Proof.
  refine (conj _ (conj _ _)); apply password_validate_rejects_one_class.
  - left. reflexivity.
  - right. reflexivity.
  - left. reflexivity.
Defined.

(** X22.  The validator itself asks for two characters and no more: a
    password it accepts has at least two characters, and any string that
    contains an accepted password is accepted. *)
Theorem password_validate_accepts value :
  password_validate value = Valid →
  (2 ≤ String.length value)%nat
  ∧ ∀ before after,
      password_validate (before ++ value ++ after)%string = Valid.
Proof.
  intros [Hdigit Hletter]%password_validate_valid. split.
  - destruct value as [|c [|c' rest]]; simpl in *; [discriminate| |lia].
    rewrite orb_false_r in Hdigit, Hletter.
    apply digit_is_no_letter in Hdigit. congruence.
  - intros before after. apply password_validate_valid.
    rewrite !some_char_append, Hdigit, Hletter, !orb_true_r. auto.
Qed.

Lemma password_validate_accepts_witness :
  password_validate "a1" = Valid
  ∧ password_validate "--a1--" = Valid.
Proof.
  destruct (password_validate_accepts "a1" eq_refl) as [_ Hextend].
  split; [reflexivity|]. exact (Hextend "--" "--").
Defined.

(** ** One write, all or nothing *)

(** X23.  An operation with a single write stores nothing when it rejects,
    whatever it rejects with: after a rejected [updateProductInCart] or
    [deleteProductFromCart], and after a rejected [addProductToCart] for a
    user who already had a cart, the stored carts are as they were. *)
Theorem rejected_single_write_stores_nothing user productId quantity w e :
  (fst (updateProductInCart user productId quantity w) = Rejected e →
   carts (snd (updateProductInCart user productId quantity w)) = carts w)
  ∧ (fst (deleteProductFromCart user productId w) = Rejected e →
     carts (snd (deleteProductFromCart user productId w)) = carts w)
  ∧ (is_Some (carts w !! user_email user) →
     fst (addProductToCart user productId quantity w) = Rejected e →
     carts (snd (addProductToCart user productId quantity w)) = carts w).
Proof.
  repeat apply conj.
  - unfold updateProductInCart. paths; intros; try discriminate; reflexivity.
  - unfold deleteProductFromCart. paths; intros; try discriminate; reflexivity.
  - intros [doc Hdoc]. unfold addProductToCart. paths; intros;
      try discriminate; reflexivity.
Qed.

Lemma rejected_single_write_stores_nothing_witness :
  let user := sample_user 300 "12 Main Street" in
  let w := sample_world (Some (sample_cart sample_items)) user [false] in
  fst (updateProductInCart user (product_id sample_p1) 5 w) = Rejected StoreError
  ∧ carts (snd (updateProductInCart user (product_id sample_p1) 5 w)) = carts w.
Proof.
  intros user w.
  destruct (rejected_single_write_stores_nothing user (product_id sample_p1) 5 w
              StoreError) as (Hupdate & _).
  split; [reflexivity|]. apply Hupdate. reflexivity.
Defined.

(** ** The index that delete splices at *)

(** X24.  The index that the [forEach] loop of [deleteProductFromCart]
    leaves is -1 exactly when no line item is for the product; otherwise it
    is the position of a line item for the product, the last such one, so
    that [splice] is handed a position inside the array whenever the guard
    before it has passed. *)
Theorem forEach_index_bounds productId arr :
  let index := forEach_index productId arr 0 (-1) in
  (index = -1 ↔ productId ∉ product_ids arr)
  ∧ (productId ∈ product_ids arr →
     0 ≤ index < Z.of_nat (length arr)
     ∧ (∃ ele, arr !! Z.to_nat index = Some ele
               ∧ product_id (product ele) = productId)
     ∧ productId ∉ product_ids (drop (S (Z.to_nat index)) arr)).
Proof.
  intros index. subst index.
  destruct (existsb (matches productId) arr) eqn:Hex.
  - pose proof Hex as Hin. apply existsb_matches_true in Hin.
    destruct (last_match_split _ _ Hex) as (l1 & x & l2 & -> & Hx & Hl2).
    rewrite (forEach_index_last productId l1 x l2 0 (-1) Hx Hl2).
    rewrite Z.add_0_l, Nat2Z.id. split.
    + split; [lia|]. intros Hnin. contradiction.
    + intros _. split; [rewrite length_app; simpl; lia|]. split.
      * exists x. split; [|apply matches_spec, Hx].
        rewrite lookup_app_r by lia. rewrite Nat.sub_diag. reflexivity.
      * change (l1 ++ x :: l2)%list with (l1 ++ [x] ++ l2)%list.
        rewrite app_assoc.
        replace (S (length l1)) with (length (l1 ++ [x]))
          by (rewrite length_app; simpl; lia).
        rewrite drop_app_length. apply existsb_matches_false, Hl2.
  - pose proof Hex as Hnin. apply existsb_matches_false in Hnin.
    rewrite (forEach_index_none productId arr 0 (-1) Hex). split.
    + split; [intros _; exact Hnin|reflexivity].
    + intros Hin. contradiction.
Qed.

Lemma forEach_index_bounds_witness :
  forEach_index (product_id sample_p2) sample_items 0 (-1) = 1
  ∧ forEach_index "no such product" sample_items 0 (-1) = -1.
Proof.
  split; [reflexivity|].
  destruct (forEach_index_bounds "no such product" sample_items) as [[_ H] _].
  apply H. simpl. intros Hin.
  apply elem_of_cons in Hin as [Hin|Hin]; [discriminate|].
  apply list_elem_of_singleton in Hin. discriminate.
Defined.

(** * Checkout on binary64 numbers *)

#[local] Arguments Double.cart_total : simpl never.

Ltac drun :=
  repeat progress
    (unfold mbind, M_bind, mret, M_ret, throw, Double.lift, Double.this_user,
       Double.assign_walletMoney, Double.hasSetNonDefaultAddress,
       Double.Cart_findOne, Double.Cart_save, Double.User_save,
       Double.getCartByUser, Double.log;
     simpl).

Lemma double_checkout_no_cart config user w :
  Double.carts w !! Double.user_email user = None →
  fst (Double.checkout config (user, w))
  = Rejected (ApiError httpStatus.NOT_FOUND "User does not have a cart").
Proof.
  intros Hcart. unfold Double.checkout. drun. rewrite Hcart. reflexivity.
Qed.

Lemma double_checkout_empty config user w userCart :
  Double.carts w !! Double.user_email user = Some userCart →
  Double.cartItems userCart = [] →
  fst (Double.checkout config (user, w))
  = Rejected
      (ApiError httpStatus.BAD_REQUEST "User's cart doesn't have any product").
Proof.
  intros Hcart Hitems. unfold Double.checkout. drun. rewrite Hcart. drun.
  rewrite Hitems. reflexivity.
Qed.

Lemma double_checkout_address config user w userCart :
  Double.carts w !! Double.user_email user = Some userCart →
  Double.cartItems userCart ≠ [] →
  Double.address user = default_address config →
  fst (Double.checkout config (user, w))
  = Rejected (ApiError httpStatus.BAD_REQUEST "Address not set").
Proof.
  intros Hcart Hitems Haddr. unfold Double.checkout. drun. rewrite Hcart. drun.
  destruct (Double.cartItems userCart) as [|ele rest]; [contradiction|]. drun.
  rewrite Haddr, String.eqb_refl. reflexivity.
Qed.

Lemma double_checkout_balance config user w userCart :
  Double.carts w !! Double.user_email user = Some userCart →
  Double.cartItems userCart ≠ [] →
  Double.address user ≠ default_address config →
  PrimFloat.ltb (Double.walletMoney user)
    (Double.cart_total (Double.cartItems userCart)) = true →
  Double.checkout config (user, w)
  = (Rejected (ApiError httpStatus.BAD_REQUEST "Wallet balance is insufficient"),
     (user,
      Double.log (EvHasSetNonDefaultAddress (Double.user_id user))
        (Double.log (EvCartFindOne (Double.user_email user)) w))).
Proof.
  intros Hcart Hitems Haddr Hlt. unfold Double.checkout. drun.
  rewrite Hcart. drun.
  destruct (Double.cartItems userCart) as [|ele rest] eqn:E; [contradiction|].
  drun. apply String.eqb_neq in Haddr. rewrite Haddr. drun.
  rewrite Hlt. reflexivity.
Qed.

(** Once the four checks have passed: the assignment, then the two writes. *)
Lemma double_checkout_settle config user w userCart :
  Double.carts w !! Double.user_email user = Some userCart →
  Double.cartItems userCart ≠ [] →
  Double.address user ≠ default_address config →
  PrimFloat.ltb (Double.walletMoney user)
    (Double.cart_total (Double.cartItems userCart)) = false →
  let user' :=
    Double.set_walletMoney
      (PrimFloat.sub (Double.walletMoney user)
         (Double.cart_total (Double.cartItems userCart))) user in
  let emptied :=
    <[Double.cart_email userCart := Double.set_cartItems [] userCart]>
      (Double.carts w) in
  let out := Double.checkout config (user, w) in
  fst (snd out) = user'
  ∧ match Double.script w with
    | false :: _ =>
        fst out = Rejected StoreError
        ∧ Double.carts (snd (snd out)) = Double.carts w
        ∧ Double.users (snd (snd out)) = Double.users w
    | true :: false :: _ =>
        fst out = Rejected StoreError
        ∧ Double.carts (snd (snd out)) = emptied
        ∧ Double.users (snd (snd out)) = Double.users w
    | _ =>
        fst out = Resolved user'
        ∧ Double.carts (snd (snd out)) = emptied
        ∧ Double.users (snd (snd out))
          = <[Double.user_id user := user']> (Double.users w)
    end.
Proof.
  intros Hcart Hitems Haddr Hge. simpl. unfold Double.checkout. drun.
  rewrite Hcart. drun.
  destruct (Double.cartItems userCart) as [|ele rest] eqn:E; [contradiction|].
  drun. apply String.eqb_neq in Haddr. rewrite Haddr. drun.
  rewrite Hge. drun.
  unfold Double.write, Double.set_carts, Double.set_users, Double.set_script,
    Double.log. simpl.
  destruct (Double.script w) as [|[] [|[] ?]]; simpl; auto.
Qed.

(** C1, as the code has it.  The total is accumulated line by line, from
    zero, each product of quantity and stored cost and each sum rounded to
    binary64.  For every user with a non-empty cart, an address other than
    the default one and a balance that is not less than that total,
    checkout resolves, when both writes persist, to the user with the
    binary64 difference of balance and total as the balance; that user is
    the one stored, and the user's cart is still stored, with an empty item
    list. *)
Theorem checkout_debits_and_empties config user w userCart :
  Double.carts w !! Double.user_email user = Some userCart →
  Double.carts_keyed w →
  Double.cartItems userCart ≠ [] →
  Double.address user ≠ default_address config →
  PrimFloat.ltb (Double.walletMoney user)
    (Double.cart_total (Double.cartItems userCart)) = false →
  next_writes_persist 2 (Double.script w) = true →
  ∃ user' w',
    Double.checkout config (user, w) = (Resolved user', (user', w'))
    ∧ user' = Double.set_walletMoney
                (PrimFloat.sub (Double.walletMoney user)
                   (Double.cart_total (Double.cartItems userCart))) user
    ∧ Double.users w' = <[Double.user_id user := user']> (Double.users w)
    ∧ Double.carts w'
      = <[Double.user_email user := Double.set_cartItems [] userCart]>
          (Double.carts w)
    ∧ (∃ doc, Double.carts w' !! Double.user_email user = Some doc
              ∧ Double.cartItems doc = []).
Proof.
  intros Hcart Hkeyed Hitems Haddr Hge Hw.
  pose proof (Hkeyed _ _ Hcart) as Hemail. simpl in Hemail.
  pose proof (double_checkout_settle config user w userCart
                Hcart Hitems Haddr Hge) as [Hdoc Hout].
  simpl in Hdoc, Hout.
  assert (match Double.script w with
          | false :: _ | true :: false :: _ => False
          | _ => True
          end) as Hscript.
  { destruct (Double.script w) as [|[] [|[] ?]]; simpl in Hw; auto;
      discriminate. }
  destruct (Double.checkout config (user, w)) as [r [u w']].
  simpl in Hdoc, Hout.
  destruct (Double.script w) as [|[] [|[] ?]]; try contradiction;
    destruct Hout as (-> & Hcarts & Husers); subst u;
    (do 2 eexists; split; [reflexivity|]; split; [reflexivity|];
     split; [exact Husers|]; rewrite Hcarts, Hemail;
     split; [reflexivity|]; eexists;
     split; [apply lookup_insert_eq|reflexivity]).
Qed.

Lemma checkout_debits_and_empties_witness :
  let user := sample_user 300 "12 Main Street" in
  ∃ user' w',
    Double.checkout sample_config
      (double_user user, double_world (sample_cart sample_items) user [])
    = (Resolved user', (user', w'))
    ∧ Double.walletMoney user' = double_of_Z 50
    ∧ (∃ doc, Double.carts w' !! "crio-user@gmail.com" = Some doc
              ∧ Double.cartItems doc = []).
Proof.
  intros user.
  destruct (checkout_debits_and_empties sample_config (double_user user)
              (double_world (sample_cart sample_items) user [])
              (double_cart (sample_cart sample_items)))
    as (user' & w' & Hrun & Huser & _ & _ & Hcart).
  - vm_compute. reflexivity.
  - unfold Double.carts_keyed. simpl. apply map_Forall_singleton. reflexivity.
  - discriminate.
  - discriminate.
  - vm_compute. reflexivity.
  - reflexivity.
  - exists user', w'. split; [exact Hrun|]. split; [|exact Hcart].
    rewrite Huser. vm_compute. reflexivity.
Defined.

(** C1, against the claim: a balance of 2^53 + 6 covers the costs
    2^53 + 2, 1 and 3 exactly, and every amount is a binary64 number, yet
    the total the code accumulates is 2^53 + 8 and checkout rejects with
    "Wallet balance is insufficient", the cart left as it was. *)
Lemma checkout_rounds_the_total :
  let user := sample_user (2 ^ 53 + 6) "12 Main Street" in
  let doc := sample_cart sample_big_items in
  let out := Double.checkout sample_config (double_user user, double_world doc user []) in
  cartItems doc ≠ []
  ∧ address user ≠ default_address sample_config
  ∧ spec_total (cartItems doc) = 2 ^ 53 + 6
  ∧ spec_total (cartItems doc) ≤ walletMoney user
  ∧ Double.cart_total (Double.cartItems (double_cart doc)) = double_of_Z (2 ^ 53 + 8)
  ∧ fst out
    = Rejected (ApiError httpStatus.BAD_REQUEST "Wallet balance is insufficient")
  ∧ Double.carts (snd (snd out)) !! cart_email doc = Some (double_cart doc).
Proof.
  repeat apply conj; try discriminate; vm_compute; reflexivity.
Qed.

(** C4, as the code has it.  For every user with a non-empty cart and an
    address that is set, whose balance is less than the total as the code
    accumulates it in binary64, checkout rejects with [BAD_REQUEST], the
    status of the kind InvalidInput, and the message "Wallet balance is
    insufficient"; the user document, the stored carts and users and the
    write script are left as they were. *)
Theorem checkout_insufficient_balance config user w userCart :
  Double.carts w !! Double.user_email user = Some userCart →
  Double.cartItems userCart ≠ [] →
  Double.address user ≠ default_address config →
  PrimFloat.ltb (Double.walletMoney user)
    (Double.cart_total (Double.cartItems userCart)) = true →
  ∃ w',
    Double.checkout config (user, w)
    = (Rejected (ApiError httpStatus.BAD_REQUEST "Wallet balance is insufficient"),
       (user, w'))
    ∧ kind_of (ApiError httpStatus.BAD_REQUEST "Wallet balance is insufficient")
      = Some InvalidInput
    ∧ Double.carts w' = Double.carts w
    ∧ Double.users w' = Double.users w
    ∧ Double.script w' = Double.script w.
Proof.
  intros Hcart Hitems Haddr Hlt.
  eexists. split; [eapply double_checkout_balance; eassumption|].
  repeat split.
Qed.

Lemma checkout_insufficient_balance_witness :
  let user := sample_user 200 "12 Main Street" in
  let w := double_world (sample_cart sample_items) user [] in
  Double.cart_total (map double_item sample_items) = double_of_Z 250
  ∧ ∃ w',
      Double.checkout sample_config (double_user user, w)
      = (Rejected (ApiError httpStatus.BAD_REQUEST "Wallet balance is insufficient"),
         (double_user user, w'))
      ∧ Double.carts w' = Double.carts w ∧ Double.users w' = Double.users w.
Proof.
  intros user w. split; [vm_compute; reflexivity|].
  destruct (checkout_insufficient_balance sample_config (double_user user) w
              (double_cart (sample_cart sample_items)))
    as (w' & Hrun & _ & Hcarts & Husers & _).
  - vm_compute. reflexivity.
  - discriminate.
  - discriminate.
  - vm_compute. reflexivity.
  - exists w'. auto.
Defined.

(** C4, against the claim.  With a balance of 200 against a total of 250 the
    message of the rejection is not "insufficient balance".  And a balance
    of 2^53 is strictly less than the exact total 2^53 + 1 of the costs 2^53
    and 1, yet the total the code accumulates is 2^53 and checkout resolves:
    the balance becomes 0 and the cart is emptied. *)
Lemma checkout_insufficient_message_differs :
  (let user := sample_user 200 "12 Main Street" in
   fst (Double.checkout sample_config
          (double_user user, double_world (sample_cart sample_items) user []))
   ≠ Rejected (ApiError httpStatus.BAD_REQUEST "insufficient balance"))
  ∧ (let user := sample_user (2 ^ 53) "12 Main Street" in
     let doc := sample_cart sample_big_pair in
     let out :=
       Double.checkout sample_config (double_user user, double_world doc user []) in
     walletMoney user < spec_total (cartItems doc)
     ∧ fst out = Resolved (double_user (sample_user 0 "12 Main Street"))
     ∧ Double.carts (snd (snd out)) !! cart_email doc
       = Some (double_cart (sample_cart []))).
Proof.
  split.
  - vm_compute. discriminate.
  - repeat apply conj; vm_compute; reflexivity.
Qed.

(** X17.  On binary64 numbers too, [checkout] resolves only after all four
    checks and both writes: whenever it resolves, the user has a cart with
    at least one line item, an address other than the default one and a
    balance that is not less than the total as the code accumulates it,
    neither write was rejected, and the user it resolves to is the given
    one with the binary64 difference of balance and total as the balance. *)
Theorem checkout_resolves_only_when config user w user' :
  fst (Double.checkout config (user, w)) = Resolved user' →
  ∃ userCart,
    Double.carts w !! Double.user_email user = Some userCart
    ∧ Double.cartItems userCart ≠ []
    ∧ Double.address user ≠ default_address config
    ∧ PrimFloat.ltb (Double.walletMoney user)
        (Double.cart_total (Double.cartItems userCart)) = false
    ∧ next_writes_persist 2 (Double.script w) = true
    ∧ user' = Double.set_walletMoney
                (PrimFloat.sub (Double.walletMoney user)
                   (Double.cart_total (Double.cartItems userCart))) user.
Proof.
  destruct (Double.carts w !! Double.user_email user) as [userCart|] eqn:Hcart;
    [|rewrite (double_checkout_no_cart config user w Hcart); discriminate].
  destruct (Double.cartItems userCart) as [|ele rest] eqn:Hitems;
    [rewrite (double_checkout_empty config user w userCart Hcart Hitems);
     discriminate|].
  assert (Double.cartItems userCart ≠ []) as Hne
      by (rewrite Hitems; discriminate).
  destruct (String.eqb_spec (Double.address user) (default_address config))
    as [Haddr|Haddr];
    [rewrite (double_checkout_address config user w userCart Hcart Hne Haddr);
     discriminate|].
  destruct (PrimFloat.ltb (Double.walletMoney user)
              (Double.cart_total (Double.cartItems userCart))) eqn:Hlt;
    [rewrite (double_checkout_balance config user w userCart Hcart Hne Haddr Hlt);
     discriminate|].
  pose proof (double_checkout_settle config user w userCart
                Hcart Hne Haddr Hlt) as [_ Hout].
  simpl in Hout. intros Hrun. rewrite Hrun in Hout.
  exists userCart.
  destruct (Double.script w) as [|[] [|[] ?]]; simpl;
    destruct Hout as (Hres & _); try discriminate;
    injection Hres as <-; repeat split; assumption.
Qed.

Lemma checkout_resolves_only_when_witness :
  let user := sample_user 300 "12 Main Street" in
  let w := double_world (sample_cart sample_items) user [] in
  ∃ userCart,
    Double.carts w !! "crio-user@gmail.com" = Some userCart
    ∧ PrimFloat.ltb (double_of_Z 300)
        (Double.cart_total (Double.cartItems userCart)) = false.
Proof.
  intros user w.
  destruct (checkout_resolves_only_when sample_config (double_user user) w
              (double_user (sample_user 50 "12 Main Street")))
    as (userCart & Hcart & _ & _ & Hge & _).
  - vm_compute. reflexivity.
  - exists userCart. split; assumption.
Defined.
